(** * asyncio_chat: the user model and the websocket notifier

    A shallow embedding of [models/user_model.py] (the relationship
    operations of [UserModel] over the [chat_users] collection) and of
    [routes/ws_route.py] (the delivery loop of [WebsocketNotifier]),
    followed by the properties of the specification that were checked
    against them. *)

From Stdlib Require Import ZArith NArith String List Lia.
From stdpp Require Import base decidable option list strings sorting.

#[local] Set Warnings "-clear-no-such-hyp".

(** ** Data model *)

(** A [bson.ObjectId] is an opaque twelve-byte handle; only equality on it
    is ever used. *)
Abbreviation ObjectId := N (only parsing).

(** Modelled from the spec: the [enums] module that declares [Status] is not
    among the sources; the data model names the members offline and online
    and leaves the others open. *)
Inductive Status : Set :=
  | offline
  | online
  | other_status (code : Z).

(** The array-valued keys of a user document. *)
Inductive ArrayField : Set :=
  | Fblocked
  | Ffriends
  | Fpendings_outgoing
  | Fpendings_incoming.

(** The keys that some update or projection of the module can remove. *)
Inductive Field : Set :=
  | Ftoken
  | Fstatus
  | Ftext_status
  | Fcode
  | Fparent
  | Fdeleted
  | Flogin
  | Fpassword
  | Fsalt
  | Farray (a : ArrayField).

#[global] Instance ArrayField_eq_dec : EqDecision ArrayField.
Proof. solve_decision. Defined.

#[global] Instance Field_eq_dec : EqDecision Field.
Proof. solve_decision. Defined.

#[global] Instance Status_eq_dec : EqDecision Status.
Proof. solve_decision. Defined.

(** A document of [db.chat_users].  The keys [_id], [nick], [created_at] and
    [bot] are written by both registration paths and never removed; every
    other key may be missing, which is [None] here. *)
Record Doc : Set := mkDoc {
  doc_id : ObjectId;
  doc_nick : string;
  doc_created_at : N;
  doc_bot : bool;
  doc_deleted : option bool;
  doc_token : option string;
  doc_status : option Status;
  doc_text_status : option string;
  doc_code : option string;
  doc_parent : option ObjectId;
  doc_blocked : option (list ObjectId);
  doc_friends : option (list ObjectId);
  doc_pendings_outgoing : option (list ObjectId);
  doc_pendings_incoming : option (list ObjectId);
  doc_login : option string;
  doc_password : option string;
  doc_salt : option string
}.

(** The dataclass [UserModel]: the in-memory copy of a document. *)
Record UserModel : Set := mkUserModel {
  _id : ObjectId;
  nick : string;
  created_at : N;
  bot : bool;
  deleted : bool;
  token : option string;
  status : Status;
  text_status : string;
  code : option string;
  parent : option ObjectId;
  blocked : list ObjectId;
  friends : list ObjectId;
  pendings_outgoing : list ObjectId;
  pendings_incoming : list ObjectId
}.

Definition get_array (f : ArrayField) (d : Doc) : option (list ObjectId) :=
  match f with
  | Fblocked => doc_blocked d
  | Ffriends => doc_friends d
  | Fpendings_outgoing => doc_pendings_outgoing d
  | Fpendings_incoming => doc_pendings_incoming d
  end.

Definition set_array (f : ArrayField) (v : option (list ObjectId)) (d : Doc) : Doc :=
  match d with
  | mkDoc i n c b del tok st ts co par bl fr po pi lo pw sa =>
    match f with
    | Fblocked => mkDoc i n c b del tok st ts co par v fr po pi lo pw sa
    | Ffriends => mkDoc i n c b del tok st ts co par bl v po pi lo pw sa
    | Fpendings_outgoing => mkDoc i n c b del tok st ts co par bl fr v pi lo pw sa
    | Fpendings_incoming => mkDoc i n c b del tok st ts co par bl fr po v lo pw sa
    end
  end.

(** Removing one key from a document ([$unset], or a [key: 0] projection). *)
Definition unset (f : Field) (d : Doc) : Doc :=
  match d with
  | mkDoc i n c b del tok st ts co par bl fr po pi lo pw sa =>
    match f with
    | Ftoken => mkDoc i n c b del None st ts co par bl fr po pi lo pw sa
    | Fstatus => mkDoc i n c b del tok None ts co par bl fr po pi lo pw sa
    | Ftext_status => mkDoc i n c b del tok st None co par bl fr po pi lo pw sa
    | Fcode => mkDoc i n c b del tok st ts None par bl fr po pi lo pw sa
    | Fparent => mkDoc i n c b del tok st ts co None bl fr po pi lo pw sa
    | Fdeleted => mkDoc i n c b None tok st ts co par bl fr po pi lo pw sa
    | Flogin => mkDoc i n c b del tok st ts co par bl fr po pi None pw sa
    | Fpassword => mkDoc i n c b del tok st ts co par bl fr po pi lo None sa
    | Fsalt => mkDoc i n c b del tok st ts co par bl fr po pi lo pw None
    | Farray a => set_array a None d
    end
  end.

Definition set_deleted (v : bool) (d : Doc) : Doc :=
  match d with
  | mkDoc i n c b _ tok st ts co par bl fr po pi lo pw sa =>
    mkDoc i n c b (Some v) tok st ts co par bl fr po pi lo pw sa
  end.

(** A projection document whose values are all [0]: the listed keys are left
    out of the result. *)
Definition exclude (keys : list Field) (d : Doc) : Doc :=
  foldr unset d keys.

Definition EXCLUDE_PUBLIC : list Field :=
  [Fcode; Fsalt; Ftoken; Flogin; Fpassword; Fstatus; Fparent;
   Farray Fblocked; Farray Ffriends;
   Farray Fpendings_outgoing; Farray Fpendings_incoming].

(** ** Exceptions and the store monad *)

Inductive exc : Set :=
  | UserNotInGroup (msg : string)
  | InvalidUser (msg : string)
  | UnavailableForBots
  | ValueError (msg : string)
  | TypeError (msg : string)
  | KeyError (key : string)
  | IndexError (msg : string)
  | InvalidOperation (msg : string)
  | DuplicateKeyError (msg : string).

Inductive outcome (A : Type) : Type :=
  | Raised (e : exc)
  | Returned (a : A).
Arguments Raised {A} e.
Arguments Returned {A} a.

(** The collection, in insertion order. *)
Abbreviation DB := (list Doc) (only parsing).

(** A coroutine over the collection: it ends by returning or by raising, and
    in both cases leaves behind whatever it wrote before. *)
Definition Aio (A : Type) : Type := list Doc → outcome A * list Doc.

#[global] Instance Aio_ret : MRet Aio := λ A a db, (Returned a, db).

#[global] Instance Aio_bind : MBind Aio := λ A B k m db,
  match m db with
  | (Returned a, db') => k a db'
  | (Raised e, db') => (Raised e, db')
  end.

Definition raise {A : Type} (e : exc) : Aio A := λ db, (Raised e, db).

Definition query {A : Type} (q : list Doc → A) : Aio A := λ db, (Returned (q db), db).

Definition write (w : list Doc → list Doc) : Aio unit := λ db, (Returned tt, w db).

(** ** The store operations the module uses *)

Definition by_id (x : ObjectId) (d : Doc) : bool := bool_decide (doc_id d = x).

(** [find_one(filter)]: the first matching document. *)
Definition find_one (flt : Doc → bool) (db : list Doc) : option Doc :=
  head (filter (λ d, Is_true (flt d)) db).

(** [count_documents(filter)]. *)
Definition count_documents (flt : Doc → bool) (db : list Doc) : nat :=
  length (filter (λ d, Is_true (flt d)) db).

(** [update_one(filter, update)] without upsert: the first matching document
    is rewritten, nothing happens when none matches. *)
Fixpoint update_first (flt : Doc → bool) (u : Doc → Doc) (db : list Doc) : list Doc :=
  match db with
  | [] => []
  | d :: rest => if flt d then u d :: rest else d :: update_first flt u rest
  end.

Inductive Update : Set :=
  | Push (f : ArrayField) (v : ObjectId)
  | Pull (f : ArrayField) (v : ObjectId)
  | Unset (keys : list Field)
  | SetDeleted (v : bool).

(** [$push] appends and creates a missing array; [$pull] drops every
    occurrence and leaves a missing array missing. *)
Definition apply_update (u : Update) (d : Doc) : Doc :=
  match u with
  | Push f v => set_array f (Some (default [] (get_array f d) ++ [v])) d
  | Pull f v =>
    match get_array f d with
    | Some l => set_array f (Some (filter (λ y, y ≠ v) l)) d
    | None => d
    end
  | Unset keys => exclude keys d
  | SetDeleted v => set_deleted v d
  end.

(** [pymongo.UpdateOne({"_id": x}, update)]. *)
Record UpdateOne : Set := mkUpdateOne {
  uo_id : ObjectId;
  uo_update : Update
}.

Definition run_update (db : list Doc) (op : UpdateOne) : list Doc :=
  update_first (by_id (uo_id op)) (apply_update (uo_update op)) db.

(** An ordered [bulk_write]: the requests are applied one after the other; an
    empty request list is refused by the driver. *)
Definition bulk_write (operations : list UpdateOne) : Aio unit :=
  match operations with
  | [] => raise (InvalidOperation "No operations to execute")
  | _ => write (λ db, foldl run_update db operations)
  end.

Definition update_one (x : ObjectId) (u : Update) : Aio unit :=
  write (λ db, run_update db (mkUpdateOne x u)).

Inductive insert_result : Set :=
  | Inserted (inserted_id : ObjectId).

(** [insert_one(document)]; [new_id] is the [_id] the driver generated for
    the document.  The unique index on [_id] refuses a second document with
    the same one. *)
Definition insert_one (d : Doc) : Aio insert_result := λ db,
  match find_one (by_id (doc_id d)) db with
  | Some _ => (Raised (DuplicateKeyError "duplicate key error on _id"), db)
  | None => (Returned (Inserted (doc_id d)), db ++ [d])
  end.

(** ** [UserModel] *)

(** The constructor call [cls] with the document as keyword arguments: missing keys take the dataclass defaults; the keys
    [login], [password] and [salt] are no fields of the dataclass, so a
    document that still carries one of them is refused. *)
Definition UserModel_init (user : Doc) : outcome UserModel :=
  match doc_login user, doc_password user, doc_salt user with
  | None, None, None =>
    Returned {|
      _id := doc_id user;
      nick := doc_nick user;
      created_at := doc_created_at user;
      bot := doc_bot user;
      deleted := default false (doc_deleted user);
      token := doc_token user;
      status := default offline (doc_status user);
      text_status := default EmptyString (doc_text_status user);
      code := doc_code user;
      parent := doc_parent user;
      blocked := default [] (doc_blocked user);
      friends := default [] (doc_friends user);
      pendings_outgoing := default [] (doc_pendings_outgoing user);
      pendings_incoming := default [] (doc_pendings_incoming user)
    |}
  | _, _, _ => Raised (TypeError "__init__() got an unexpected keyword argument")
  end.

Definition lift_outcome {A : Type} (o : outcome A) : Aio A := λ db, (o, db).

Definition _valid_user_id (user_id : ObjectId) (bot : bool) : Aio bool :=
  user ← query (count_documents (λ d,
            by_id user_id d
            && bool_decide (doc_bot d = bot)
            && bool_decide (doc_deleted d = None)));
  mret (bool_decide (user ≠ 0%nat)).

Definition _check_blocked (check_user_id is_blocked : ObjectId) : Aio bool :=
  is_blocked ← query (count_documents (λ d,
            by_id check_user_id d
            && bool_decide (is_blocked ∈ default [] (doc_blocked d))));
  mret (bool_decide (is_blocked ≠ 0%nat)).

(** The requests a caller hands to [bulk_write]: a Python list, or, as
    [delete_user] builds them, a tuple. *)
Inductive Requests : Set :=
  | ListOf (operations : list UpdateOne)
  | TupleOf (operations : list UpdateOne).

Definition operations_of (requests : Requests) : list UpdateOne :=
  match requests with
  | ListOf operations | TupleOf operations => operations
  end.

(** [bulk_write] on requests of either kind.  The driver first validates its
    argument: requests that are not a list are refused with a [TypeError]
    before anything is sent to the collection. *)
Definition bulk_write_requests (requests : Requests) : Aio unit :=
  match requests with
  | ListOf operations => bulk_write operations
  | TupleOf _ => raise (TypeError "requests must be a list")
  end.

(** The two updates [delete_user] prepares, in the parenthesised tuple of the
    source. *)
Definition bulk_user_removing (self : UserModel) : Requests :=
  TupleOf [
    mkUpdateOne (_id self)
      (Unset [Ftoken; Fstatus; Ftext_status; Fcode; Fparent;
              Farray Fblocked; Farray Ffriends;
              Farray Fpendings_outgoing; Farray Fpendings_incoming]);
    mkUpdateOne (_id self) (SetDeleted true)
  ].

Definition delete_user (self : UserModel) : Aio unit :=
  bulk_write_requests (bulk_user_removing self).

(** *** Friends related *)

Definition send_friend_request (self : UserModel) (to_user_id : ObjectId) : Aio unit :=
  if bot self then raise UnavailableForBots else
  valid_user ← _valid_user_id to_user_id false;
  if negb valid_user then raise (InvalidUser "User isn't valid or is bot") else
  is_blocked ← _check_blocked to_user_id (_id self);
  if is_blocked : bool then raise (InvalidUser "User blocked you") else
  let blocked_by_self := bool_decide (to_user_id ∈ blocked self) in
  if blocked_by_self then raise (InvalidUser "You blocked user yourself") else
  let in_other_relations :=
    bool_decide (to_user_id ∈ pendings_incoming self)
    || bool_decide (to_user_id ∈ pendings_outgoing self)
    || bool_decide (to_user_id ∈ friends self) in
  if in_other_relations
  then raise (InvalidUser "User is in some relations with you already") else
  bulk_write [
    mkUpdateOne (_id self) (Push Fpendings_outgoing to_user_id);
    mkUpdateOne to_user_id (Push Fpendings_incoming (_id self))
  ].

Definition response_friend_request (self : UserModel) (user_id : ObjectId)
    (confirm : bool) : Aio unit :=
  if bot self then raise UnavailableForBots else
  if negb (bool_decide (user_id ∈ pendings_incoming self))
  then raise (UserNotInGroup "User isn't in incoming pendings") else
  let operations := [
    mkUpdateOne user_id (Pull Fpendings_outgoing (_id self));
    mkUpdateOne (_id self) (Pull Fpendings_incoming user_id)
  ] in
  let operations :=
    if confirm
    then operations ++ [
      mkUpdateOne (_id self) (Push Ffriends user_id);
      mkUpdateOne user_id (Push Ffriends (_id self))
    ]
    else operations in
  bulk_write operations.

Definition cancel_friend_request (self : UserModel) (user_id : ObjectId) : Aio unit :=
  if bot self then raise UnavailableForBots else
  if negb (bool_decide (user_id ∈ pendings_outgoing self))
  then raise (UserNotInGroup "User isn't in outgoing pendings") else
  bulk_write [
    mkUpdateOne (_id self) (Pull Fpendings_outgoing user_id);
    mkUpdateOne user_id (Pull Fpendings_incoming (_id self))
  ].

Definition delete_friend (self : UserModel) (user_id : ObjectId) : Aio unit :=
  if bot self then raise UnavailableForBots else
  if negb (bool_decide (user_id ∈ friends self))
  then raise (UserNotInGroup "User isn't a friend") else
  bulk_write [
    mkUpdateOne (_id self) (Pull Ffriends user_id);
    mkUpdateOne user_id (Pull Ffriends (_id self))
  ].

(** *** Blocked users related *)

Definition block_user (self : UserModel) (blocking : ObjectId) : Aio unit :=
  valid ← _valid_user_id blocking false;
  if negb valid || bool_decide (blocking ∈ blocked self)
  then raise (UserNotInGroup "User is already blocked or invalid") else
  let operations := [ mkUpdateOne (_id self) (Push Fblocked blocking) ] in
  let operations :=
    if bool_decide (blocking ∈ pendings_incoming self)
    then operations ++ [
      mkUpdateOne (_id self) (Pull Fpendings_outgoing blocking);
      mkUpdateOne blocking (Pull Fpendings_incoming (_id self))
    ]
    else operations in
  let operations :=
    if bool_decide (blocking ∈ pendings_outgoing self)
    then operations ++ [
      mkUpdateOne blocking (Pull Fpendings_outgoing (_id self));
      mkUpdateOne (_id self) (Pull Fpendings_incoming blocking)
    ]
    else operations in
  let operations :=
    if bool_decide (blocking ∈ friends self)
    then operations ++ [
      mkUpdateOne (_id self) (Pull Ffriends blocking);
      mkUpdateOne blocking (Pull Ffriends (_id self))
    ]
    else operations in
  bulk_write operations.

Definition unblock_user (self : UserModel) (unblocking : ObjectId) : Aio unit :=
  if negb (bool_decide (unblocking ∈ blocked self))
  then raise (UserNotInGroup "User isn't blocked") else
  update_one (_id self) (Pull Fblocked unblocking).

(** *** Public projection and listings *)

(** The dict built by [public_dict]; the key [deleted] is present, and then
    [True], only for a deleted user. *)
Record PublicDict : Set := mkPublicDict {
  pd_id : ObjectId;
  pd_status : Status;
  pd_text_status : string;
  pd_bot : bool;
  pd_nick : string;
  pd_created_at : N;
  pd_deleted : option bool
}.

Definition public_dict (self : UserModel) : PublicDict :=
  {| pd_id := _id self;
     pd_status := status self;
     pd_text_status := text_status self;
     pd_bot := bot self;
     pd_nick := nick self;
     pd_created_at := created_at self;
     pd_deleted := if deleted self then Some true else None |}.

(** [find(filter, projection)]: the matching documents in natural order, each
    without the excluded keys. *)
Definition find (flt : Doc → bool) (projection : list Field) (db : list Doc) : list Doc :=
  exclude projection <$> filter (λ d, Is_true (flt d)) db.

(** The order of [.sort("nick", -1)]: descending by nickname. *)
Definition nick_descending (a b : Doc) : Prop :=
  Is_true (String.leb (doc_nick b) (doc_nick a)).

#[global] Instance nick_descending_dec : RelDecision nick_descending.
Proof. intros a b. unfold nick_descending. apply _. Defined.

(** The [async for] loop of both listings: each fetched document is turned
    into a [UserModel] and its public projection appended. *)
Fixpoint collect_public (users : list Doc) : outcome (list PublicDict) :=
  match users with
  | [] => Returned []
  | user :: rest =>
    match UserModel_init user with
    | Raised e => Raised e
    | Returned user =>
      match collect_public rest with
      | Raised e => Raised e
      | Returned users_objects => Returned (public_dict user :: users_objects)
      end
    end
  end.

Definition get_friends (self : UserModel) (fetch_friends : list ObjectId)
    : Aio (list PublicDict) :=
  if bot self then mret [] else
  users ← query (λ db,
    merge_sort nick_descending
      (find (λ d, bool_decide (doc_id d ∈ fetch_friends)) EXCLUDE_PUBLIC db));
  lift_outcome (collect_public users).

Definition get_blocked (self : UserModel) (fetch_blocked : list ObjectId)
    : Aio (list PublicDict) :=
  users ← query (find (λ d, bool_decide (doc_id d ∈ fetch_blocked)) EXCLUDE_PUBLIC);
  lift_outcome (collect_public users).

Definition from_id (user_id : ObjectId) : Aio UserModel :=
  user ← query (λ db, exclude EXCLUDE_PUBLIC <$> find_one (by_id user_id) db);
  match user with
  | None => raise (InvalidUser "User id doesn't exists")
  | Some user => lift_outcome (UserModel_init user)
  end.

(** *** Registration and authorization *)

(** [registrate_bot]; [new_token] is what [generate_token()] returned, [now]
    what [datetime.utcnow()] returned and [new_id] the generated [_id]. *)
Definition registrate_bot (nick : string) (parent : ObjectId)
    (new_token : string) (now : N) (new_id : ObjectId) : Aio UserModel :=
  has_number_of_bots ← query (count_documents (λ d,
      bool_decide (doc_parent d = Some parent)
      && bool_decide (doc_deleted d = None)));
  if (20 <? has_number_of_bots)%nat
  then raise (ValueError "Too many bots") else
  let new_user :=
    {| doc_id := new_id;
       doc_nick := nick;
       doc_created_at := now;
       doc_bot := true;
       doc_deleted := None;
       doc_token := Some new_token;
       doc_status := Some online;
       doc_text_status := None;
       doc_code := None;
       doc_parent := Some parent;
       doc_blocked := Some [];
       doc_friends := Some [];
       doc_pendings_outgoing := Some [];
       doc_pendings_incoming := Some [];
       doc_login := None;
       doc_password := None;
       doc_salt := None |} in
  inserted ← insert_one new_user;
  lift_outcome (UserModel_init new_user).

Section Credentials.

(** [sha256(s.encode()).hexdigest()] and
    [pbkdf2_hmac('sha256', password.encode(), salt.encode(), n).hex()]. *)
Variable sha256_hexdigest : string → string.
Variable pbkdf2_hmac_hex : string → string → N → string.

Definition non_empty (s : string) : bool := negb (bool_decide (s = EmptyString)).

(** [find_one({"login": login}, {"salt": 1})] followed by the subscript
    [salt['salt']]: no document gives [None], which cannot be subscripted;
    a document without the key gives a [KeyError]. *)
Definition _get_salt_hashed_login (login : string) : Aio string :=
  salt ← query (find_one (λ d, bool_decide (doc_login d = Some login)));
  match salt with
  | None => raise (TypeError "'NoneType' object is not subscriptable")
  | Some salt =>
    match doc_salt salt with
    | None => raise (KeyError "salt")
    | Some s => mret s
    end
  end.

Definition authorize (login password token : string) : Aio UserModel :=
  let exclude_ := [Flogin; Fpassword; Fsalt] in
  user ←
    (if non_empty token then
       query (λ db, exclude exclude_ <$>
                find_one (λ d, bool_decide (doc_token d = Some token)) db)
     else if non_empty login && non_empty password then
       let login := sha256_hexdigest login in
       salt ← _get_salt_hashed_login login;
       let password := pbkdf2_hmac_hex password salt 100000 in
       query (λ db, exclude exclude_ <$>
                find_one (λ d, bool_decide (doc_login d = Some login)
                                 && bool_decide (doc_password d = Some password)) db)
     else raise (ValueError "Not enough auth info"));
  match user with
  | None => raise (InvalidUser "No such user")
  | Some user => lift_outcome (UserModel_init user)
  end.

(** [registrate]; [salt] is what [generate_salt()] returned. *)
Definition registrate (nick login password : string)
    (salt new_token : string) (now : N) (new_id : ObjectId) : Aio UserModel :=
  let password := pbkdf2_hmac_hex password salt 100000 in
  let login := sha256_hexdigest login in
  let new_user :=
    {| doc_id := new_id;
       doc_nick := nick;
       doc_created_at := now;
       doc_bot := false;
       doc_deleted := None;
       doc_token := Some new_token;
       doc_status := Some online;
       doc_text_status := None;
       doc_code := None;
       doc_parent := None;
       doc_blocked := Some [];
       doc_friends := Some [];
       doc_pendings_outgoing := Some [];
       doc_pendings_incoming := Some [];
       doc_login := Some login;
       doc_password := Some password;
       doc_salt := Some salt |} in
  existing ← query (find_one (λ d, bool_decide (doc_login d = Some login)));
  if bool_decide (is_Some existing)
  then raise (ValueError "Disallowed registration") else
  inserted ← insert_one new_user;
  lift_outcome (UserModel_init (exclude [Fpassword; Flogin; Fsalt] new_user)).

End Credentials.

(** ** [WebsocketNotifier] *)

Section Notifier.

(** The events handed to a connection and their [str] serialization. *)
Variable Message : Type.
Variable str : Message → string.

Record WebsocketNotifier : Type := mkNotifier {
  activated : bool;
  message_pool : list Message
}.

(** Modelled from the spec: the producer that fills [message_pool] lives in
    the user view, which is not among the sources; a connection owns a FIFO
    queue of pending outbound messages, so enqueueing appends at its end. *)
Definition enqueue (ms : list Message) (self : WebsocketNotifier) : WebsocketNotifier :=
  {| activated := activated self; message_pool := message_pool self ++ ms |}.

(** [self.message_pool.pop(0)]. *)
Definition pop0 (self : WebsocketNotifier) : outcome (Message * WebsocketNotifier) :=
  match message_pool self with
  | [] => Raised (IndexError "pop from empty list")
  | message :: rest =>
    Returned (message, {| activated := activated self; message_pool := rest |})
  end.

(** The [for] loop of one cycle.  [wire] is what the websocket has sent so
    far.  Every [await websocket.send] lets the other tasks run: the head of
    [arriving] is what they enqueue meanwhile. *)
Fixpoint flush (n : nat) (arriving : list (list Message))
    (self : WebsocketNotifier) (wire : list string)
    : outcome (WebsocketNotifier * list string) :=
  match n with
  | O => Returned (self, wire)
  | S n' =>
    match pop0 self with
    | Raised e => Raised e
    | Returned (message, self) =>
      flush n' (tail arriving) (enqueue (hd [] arriving) self) (wire ++ [str message])
    end
  end.

(** One pass through the body of the [while] loop that is not cancelled:
    the length is taken, that many messages are popped and sent, and what
    arrives after the last send arrives during the [sleep]. *)
Definition cycle (arriving : list (list Message))
    (self : WebsocketNotifier) (wire : list string)
    : outcome (WebsocketNotifier * list string) :=
  let message_pool_length := length (message_pool self) in
  match flush message_pool_length arriving self wire with
  | Raised e => Raised e
  | Returned (self, wire) =>
    Returned (enqueue (concat (drop message_pool_length arriving)) self, wire)
  end.

(** The [while self.activated] loop, one element of [schedule] per cycle. *)
Fixpoint run (schedule : list (list (list Message)))
    (self : WebsocketNotifier) (wire : list string)
    : outcome (WebsocketNotifier * list string) :=
  match schedule with
  | [] => Returned (self, wire)
  | arriving :: later =>
    if activated self then
      match cycle arriving self wire with
      | Raised e => Raised e
      | Returned (self, wire) => run later self wire
      end
    else Returned (self, wire)
  end.

Definition __call__ (schedule : list (list (list Message)))
    (self : WebsocketNotifier) (wire : list string)
    : outcome (WebsocketNotifier * list string) :=
  run schedule {| activated := true; message_pool := message_pool self |} wire.

End Notifier.

Arguments activated {Message} _.
Arguments message_pool {Message} _.
Arguments mkNotifier {Message} _ _.
Arguments enqueue {Message} ms self.
Arguments pop0 {Message} self.
Arguments flush {Message} str n arriving self wire.
Arguments cycle {Message} str arriving self wire.
Arguments run {Message} str schedule self wire.
Arguments __call__ {Message} str schedule self wire.


(** ** Setters and the token *)

(** The [$set] updates of the module; the value of [status] is left to the
    [enums] module and [set_status] with it. *)
Inductive SetField : Set :=
  | SetToken (v : string)
  | SetNick (v : string)
  | SetTextStatus (v : string)
  | SetCode (v : string).

Definition apply_set (s : SetField) (d : Doc) : Doc :=
  match d with
  | mkDoc i n c b del tok st ts co par bl fr po pi lo pw sa =>
    match s with
    | SetToken v => mkDoc i n c b del (Some v) st ts co par bl fr po pi lo pw sa
    | SetNick v => mkDoc i v c b del tok st ts co par bl fr po pi lo pw sa
    | SetTextStatus v => mkDoc i n c b del tok st (Some v) co par bl fr po pi lo pw sa
    | SetCode v => mkDoc i n c b del tok st ts (Some v) par bl fr po pi lo pw sa
    end
  end.

(** [users_db.update_one({"_id": x}, {"$set": {...}})]. *)
Definition update_one_set (x : ObjectId) (s : SetField) : Aio unit :=
  write (update_first (by_id x) (apply_set s)).

(** Assignments to the fields of [self]. *)
Definition with_token (v : string) (self : UserModel) : UserModel :=
  {| _id := _id self; nick := nick self; created_at := created_at self;
     bot := bot self; deleted := deleted self; token := Some v;
     status := status self; text_status := text_status self;
     code := code self; parent := parent self; blocked := blocked self;
     friends := friends self; pendings_outgoing := pendings_outgoing self;
     pendings_incoming := pendings_incoming self |}.

Definition with_nick (v : string) (self : UserModel) : UserModel :=
  {| _id := _id self; nick := v; created_at := created_at self;
     bot := bot self; deleted := deleted self; token := token self;
     status := status self; text_status := text_status self;
     code := code self; parent := parent self; blocked := blocked self;
     friends := friends self; pendings_outgoing := pendings_outgoing self;
     pendings_incoming := pendings_incoming self |}.

Definition with_text_status (v : string) (self : UserModel) : UserModel :=
  {| _id := _id self; nick := nick self; created_at := created_at self;
     bot := bot self; deleted := deleted self; token := token self;
     status := status self; text_status := v;
     code := code self; parent := parent self; blocked := blocked self;
     friends := friends self; pendings_outgoing := pendings_outgoing self;
     pendings_incoming := pendings_incoming self |}.

Definition with_code (v : string) (self : UserModel) : UserModel :=
  {| _id := _id self; nick := nick self; created_at := created_at self;
     bot := bot self; deleted := deleted self; token := token self;
     status := status self; text_status := text_status self;
     code := Some v; parent := parent self; blocked := blocked self;
     friends := friends self; pendings_outgoing := pendings_outgoing self;
     pendings_incoming := pendings_incoming self |}.

(** [n in range(lo, hi)]. *)
Definition in_range (n lo hi : nat) : bool := (lo <=? n)%nat && (n <? hi)%nat.

(** [update_token]; [new_token] is what [generate_token()] returned.  The
    call returns the token and leaves it in [self]. *)
Definition update_token (self : UserModel) (new_token : string)
    : Aio (string * UserModel) :=
  _ ← update_one_set (_id self) (SetToken new_token);
  mret (new_token, with_token new_token self).

(** The setters return nothing; what is returned here is [self] after the
    assignment. *)
Definition set_nick (self : UserModel) (new_nick : string) : Aio UserModel :=
  if negb (in_range (String.length new_nick) 1 (25 + 1))
  then raise (ValueError "Invalid nickname") else
  _ ← update_one_set (_id self) (SetNick new_nick);
  mret (with_nick new_nick self).

Definition set_text_status (self : UserModel) (text_status : string) : Aio UserModel :=
  if (256 <? String.length text_status)%nat
  then raise (ValueError "Too long status") else
  _ ← update_one_set (_id self) (SetTextStatus text_status);
  mret (with_text_status text_status self).

Definition _avaliable_friend_code (code : string) : Aio bool :=
  same_codes ← query (count_documents (λ d, bool_decide (doc_code d = Some code)));
  mret (negb (bool_decide (same_codes ≠ 0%nat))).

Definition set_friend_code (self : UserModel) (new_code : string) : Aio UserModel :=
  if bot self then raise UnavailableForBots else
  if negb (in_range (String.length new_code) 3 51)
  then raise (ValueError "Too long friend code") else
  is_avaliable ← _avaliable_friend_code new_code;
  if negb is_avaliable then raise (ValueError "Code is already used") else
  _ ← update_one_set (_id self) (SetCode new_code);
  mret (with_code new_code self).
(** * Vocabulary of the properties *)

(** The stored document of a user, and the ids a relation key of it holds
    (none when the user or the key is missing). *)
Definition get_user (db : list Doc) (x : ObjectId) : option Doc :=
  find_one (by_id x) db.

Definition relation (f : ArrayField) (db : list Doc) (x : ObjectId) : list ObjectId :=
  default [] (get_user db x ≫= get_array f).

(** The unique index on [_id]. *)
Definition unique_ids (db : list Doc) : Prop := NoDup (doc_id <$> db).

(** [x] resolves to an existing, non-deleted, non-bot user. *)
Definition resolves (db : list Doc) (x : ObjectId) : Prop :=
  ∃ d, d ∈ db ∧ doc_id d = x ∧ doc_bot d = false ∧ doc_deleted d = None.

(** [self] is the current state of its document, as [authorize] loads it. *)
Definition loaded (db : list Doc) (self : UserModel) : Prop :=
  ∃ d, get_user db (_id self) = Some d
       ∧ UserModel_init (exclude [Flogin; Fpassword; Fsalt] d) = Returned self.

(** Friendship and pending requests are stored as matched pairs of edges. *)
Definition matched_edges (db : list Doc) (a b : ObjectId) : Prop :=
  (b ∈ relation Ffriends db a ↔ a ∈ relation Ffriends db b)
  ∧ (b ∈ relation Fpendings_outgoing db a ↔ a ∈ relation Fpendings_incoming db b)
  ∧ (a ∈ relation Fpendings_outgoing db b ↔ b ∈ relation Fpendings_incoming db a).

(** The request from [a] to [b], stored on both sides, is the only relation
    edge between the two users. *)
Definition only_pending (db : list Doc) (a b : ObjectId) : Prop :=
  ∀ f x y, (x = a ∧ y = b) ∨ (x = b ∧ y = a) →
    (y ∈ relation f db x
     ↔ (f = Fpendings_outgoing ∧ x = a ∧ y = b)
       ∨ (f = Fpendings_incoming ∧ x = b ∧ y = a)).

(** [to_user_id] is refused by the checks of [send_friend_request]. *)
Definition refused (db : list Doc) (a b : ObjectId) : Prop :=
  ¬ resolves db b
  ∨ a ∈ relation Fblocked db b
  ∨ b ∈ relation Fblocked db a
  ∨ b ∈ relation Fpendings_incoming db a
  ∨ b ∈ relation Fpendings_outgoing db a
  ∨ b ∈ relation Ffriends db a.

(** Raising leaves the collection as it was. *)
Definition no_write_on_error {A : Type} (m : Aio A) : Prop :=
  ∀ db e db', m db = (Raised e, db') → db' = db.

(** ** Sample collections *)

(** A document as [registrate] inserts it. *)
Definition human (i : ObjectId) (name : string) : Doc :=
  {| doc_id := i;
     doc_nick := name;
     doc_created_at := 0;
     doc_bot := false;
     doc_deleted := None;
     doc_token := Some name;
     doc_status := Some online;
     doc_text_status := None;
     doc_code := None;
     doc_parent := None;
     doc_blocked := Some [];
     doc_friends := Some [];
     doc_pendings_outgoing := Some [];
     doc_pendings_incoming := Some [];
     doc_login := Some name;
     doc_password := Some "digest";
     doc_salt := Some "salt" |}.

(** The in-memory copy of such a document with the given relation sets. *)
Definition actor (i : ObjectId) (name : string)
    (bl fr po pi : list ObjectId) : UserModel :=
  {| _id := i;
     nick := name;
     created_at := 0;
     bot := false;
     deleted := false;
     token := Some name;
     status := online;
     text_status := "";
     code := None;
     parent := None;
     blocked := bl;
     friends := fr;
     pendings_outgoing := po;
     pendings_incoming := pi |}.

(** Ann and Bob, just registered. *)
Definition two_users : list Doc := [human 1 "Ann"; human 2 "Bob"].

Definition ann : UserModel := actor 1 "Ann" [] [] [] [].

(** Ann has sent Bob a request. *)
Definition requested : list Doc :=
  [set_array Fpendings_outgoing (Some [2%N]) (human 1 "Ann");
   set_array Fpendings_incoming (Some [1%N]) (human 2 "Bob")].

Definition bob_asked : UserModel := actor 2 "Bob" [] [] [] [1%N].

(** Bob has blocked Ann. *)
Definition bob_blocked_ann : list Doc :=
  [human 1 "Ann"; set_array Fblocked (Some [1%N]) (human 2 "Bob")].

Definition bob : UserModel := actor 2 "Bob" [] [] [] [].

Definition bob_blocking : UserModel := actor 2 "Bob" [1%N] [] [] [].

(** The same actor with another bot flag. *)
Definition set_bot (b : bool) (self : UserModel) : UserModel :=
  {| _id := _id self;
     nick := nick self;
     created_at := created_at self;
     bot := b;
     deleted := deleted self;
     token := token self;
     status := status self;
     text_status := text_status self;
     code := code self;
     parent := parent self;
     blocked := blocked self;
     friends := friends self;
     pendings_outgoing := pendings_outgoing self;
     pendings_incoming := pendings_incoming self |}.

(** A document as [registrate_bot] inserts it. *)
Definition bot_doc (i owner : ObjectId) (name : string) : Doc :=
  {| doc_id := i;
     doc_nick := name;
     doc_created_at := 0;
     doc_bot := true;
     doc_deleted := None;
     doc_token := Some name;
     doc_status := Some online;
     doc_text_status := None;
     doc_code := None;
     doc_parent := Some owner;
     doc_blocked := Some [];
     doc_friends := Some [];
     doc_pendings_outgoing := Some [];
     doc_pendings_incoming := Some [];
     doc_login := None;
     doc_password := None;
     doc_salt := None |}.

(** Ann, Bob and a bot of Ann's. *)
Definition with_robot : list Doc :=
  [human 1 "Ann"; human 2 "Bob"; bot_doc 3 1 "Robo"].

Definition robot : UserModel :=
  {| _id := 3;
     nick := "Robo";
     created_at := 0;
     bot := true;
     deleted := false;
     token := Some "Robo";
     status := online;
     text_status := "";
     code := None;
     parent := Some 1%N;
     blocked := [];
     friends := [];
     pendings_outgoing := [];
     pendings_incoming := [] |}.

(** Ann has sent Bob a request and her document has been marked deleted
    since, in the shape the two updates prepared by [delete_user] give it:
    it lost its relation arrays, Bob's still names her. *)
Definition ann_gone : list Doc :=
  [mkDoc 1 "Ann" 0 false (Some true) None None None None None
         None None None None (Some "Ann") (Some "digest") (Some "salt");
   set_array Fpendings_incoming (Some [1%N]) (human 2 "Bob")].

(** The user [x] has a document and it is marked deleted. *)
Definition marked_deleted (db : list Doc) (x : ObjectId) : Prop :=
  ∃ d, get_user db x = Some d ∧ is_Some (doc_deleted d).

(** The number [registrate_bot] compares with the cap: the documents owned by
    [owner] that carry no [deleted] key. *)
Definition bots_of (owner : ObjectId) (db : list Doc) : nat :=
  count_documents (λ d,
    bool_decide (doc_parent d = Some owner)
    && bool_decide (doc_deleted d = None)) db.

(** Ann and twenty bots of hers, with the ids 2 to 21. *)
Definition twenty_bots : list Doc :=
  human 1 "Ann" :: ((λ i, bot_doc (N.of_nat i) 1 "bot") <$> seq 2 20).

(** The documents a listing is asked for. *)
Definition asked_for (ids : list ObjectId) (db : list Doc) : nat :=
  count_documents (λ d, bool_decide (doc_id d ∈ ids)) db.

(** Stand-ins for the two hash functions, for running [authorize]. *)
Definition toy_sha256 (s : string) : string := String.append "sha256:" s.

Definition toy_pbkdf2 (password salt : string) (iterations : N) : string :=
  String.append password (String.append "$" salt).

(** Ann as [registrate] stores her with these stand-ins, password "secret". *)
Definition ann_registered : list Doc :=
  [mkDoc 1 "Ann" 0 false None (Some "token-of-ann"%string) (Some online) None None
         None (Some []) (Some []) (Some []) (Some [])
         (Some "sha256:ann"%string) (Some "secret$pepper"%string)
         (Some "pepper"%string)].

(** ** Vocabulary of the further properties *)

(** Friendship and pending requests are matched for every pair of users. *)
Definition symmetric (db : list Doc) : Prop :=
  ∀ a b,
    (b ∈ relation Ffriends db a ↔ a ∈ relation Ffriends db b)
    ∧ (b ∈ relation Fpendings_outgoing db a ↔ a ∈ relation Fpendings_incoming db b).

(** A document without its four relation arrays. *)
Definition without_arrays (d : Doc) : Doc :=
  exclude [Farray Fblocked; Farray Ffriends;
           Farray Fpendings_outgoing; Farray Fpendings_incoming] d.

(** The update pushes onto or pulls from a relation array. *)
Definition array_update (u : Update) : Prop :=
  match u with
  | Push _ _ | Pull _ _ => True
  | _ => False
  end.

(** No friend code is held by two documents. *)
Definition unique_codes (db : list Doc) : Prop :=
  ∀ c, (count_documents (λ d, bool_decide (doc_code d = Some c)) db ≤ 1)%nat.

(** The public projection of a stored document as a listing shows it. *)
Definition listed (d : Doc) : PublicDict :=
  {| pd_id := doc_id d;
     pd_status := offline;
     pd_text_status := default EmptyString (doc_text_status d);
     pd_bot := doc_bot d;
     pd_nick := doc_nick d;
     pd_created_at := doc_created_at d;
     pd_deleted := if default false (doc_deleted d) then Some true else None |}.

(** Ann and Bob after Bob has confirmed Ann's request. *)
Definition befriended : list Doc :=
  [set_array Ffriends (Some [2%N])
     (set_array Fpendings_outgoing (Some []) (human 1 "Ann"));
   set_array Ffriends (Some [1%N])
     (set_array Fpendings_incoming (Some []) (human 2 "Bob"))].

(** The batch names only the two users and only relation arrays. *)
Definition batch_between (a b : ObjectId) (operations : list UpdateOne) : Prop :=
  Forall (λ op, array_update (uo_update op) ∧ (uo_id op = a ∨ uo_id op = b))
         operations.

(** Ann after she has chosen the friend code "ann-code". *)
Definition ann_with_code : list Doc :=
  [apply_set (SetCode "ann-code") (human 1 "Ann"); human 2 "Bob"].

(** The order of the friends listing on the profiles. *)
Definition listed_descending (p q : PublicDict) : Prop :=
  Is_true (String.leb (pd_nick q) (pd_nick p)).

(** The collection an operation leaves behind, whatever its outcome. *)
Definition after {A : Type} (m : Aio A) (db : list Doc) : list Doc := snd (m db).

(** The ids of the documents that carry the [deleted] key, in the order of
    the collection. *)
Definition deleted_ids (db : list Doc) : list ObjectId :=
  doc_id <$> filter (λ d, is_Some (doc_deleted d)) db.

(** * Properties *)

(** ** Reading the collection *)

Lemma find_one_cons flt d db :
  find_one flt (d :: db) = if flt d then Some d else find_one flt db.
Proof.
  unfold find_one. rewrite filter_cons.
  by destruct (flt d).
Qed.

Lemma count_documents_cons flt d db :
  count_documents flt (d :: db)
  = ((if flt d then 1 else 0) + count_documents flt db)%nat.
Proof.
  unfold count_documents. rewrite filter_cons.
  by destruct (flt d).
Qed.

Lemma count_documents_pos flt db :
  count_documents flt db ≠ 0%nat ↔ ∃ d, d ∈ db ∧ flt d = true.
Proof.
  induction db as [|d db IH].
  - split; [done | intros (d & Hd & _); by apply elem_of_nil in Hd].
  - rewrite count_documents_cons. destruct (flt d) eqn:E.
    + split; [intros _; exists d; split; [left | done] | simpl; lia].
    + simpl. rewrite IH. split.
      * intros (d' & Hd' & Hf). exists d'. split; [by right | done].
      * intros (d' & Hd' & Hf). apply elem_of_cons in Hd' as [-> | Hd'];
          [congruence | by exists d'].
Qed.

Lemma by_id_true x d : by_id x d = true ↔ doc_id d = x.
Proof. unfold by_id. apply bool_decide_eq_true. Qed.

Lemma get_user_Some db x d : get_user db x = Some d → d ∈ db ∧ doc_id d = x.
Proof.
  unfold get_user. induction db as [|d' db IH]; [done |].
  rewrite find_one_cons. destruct (by_id x d') eqn:E.
  - intros [= ->]. split; [left | by apply by_id_true].
  - intros H. destruct (IH H). split; [by right | done].
Qed.

Lemma get_user_unique db x d :
  unique_ids db → d ∈ db → doc_id d = x → get_user db x = Some d.
Proof.
  unfold unique_ids, get_user. induction db as [|d' db IH]; intros Hnd Hin Hid.
  - by apply elem_of_nil in Hin.
  - rewrite find_one_cons. rewrite fmap_cons in Hnd.
    apply NoDup_cons in Hnd as [Hnotin Hnd].
    apply elem_of_cons in Hin as [-> | Hin].
    + apply by_id_true in Hid. by rewrite Hid.
    + destruct (by_id x d') eqn:E; [| by apply IH].
      apply by_id_true in E. exfalso. apply Hnotin.
      rewrite E, <- Hid. by apply list_elem_of_fmap_2.
Qed.

(** ** The effect of one update request *)

Lemma set_array_id f v d : doc_id (set_array f v d) = doc_id d.
Proof. by destruct d, f. Qed.

Lemma unset_id f d : doc_id (unset f d) = doc_id d.
Proof. destruct d, f; try done. by destruct a. Qed.

Lemma exclude_id keys d : doc_id (exclude keys d) = doc_id d.
Proof.
  induction keys as [|k keys IH]; [done |].
  unfold exclude in *. simpl. by rewrite unset_id.
Qed.

Lemma apply_update_id u d : doc_id (apply_update u d) = doc_id d.
Proof.
  destruct u as [f v | f v | keys | v]; simpl.
  - apply set_array_id.
  - destruct (get_array f d); [apply set_array_id | done].
  - apply exclude_id.
  - by destruct d.
Qed.

Lemma get_array_set_array f g v d :
  get_array f (set_array g v d) = if decide (f = g) then v else get_array f d.
Proof. by destruct d, f, g. Qed.

Lemma get_user_update_first db x y u :
  (∀ d, doc_id (u d) = doc_id d) →
  get_user (update_first (by_id y) u db) x
  = if decide (x = y) then u <$> get_user db x else get_user db x.
Proof.
  intros Hu. unfold get_user. induction db as [|d db IH].
  - by case_decide.
  - simpl. destruct (by_id y d) eqn:Ey.
    + rewrite !find_one_cons. apply by_id_true in Ey.
      unfold by_id at 1 3. rewrite Hu, Ey.
      case_decide as Hxy.
      * subst x. by rewrite !bool_decide_eq_true_2.
      * unfold by_id. rewrite Ey. by rewrite !bool_decide_eq_false_2 by congruence.
    + rewrite !find_one_cons. destruct (by_id x d) eqn:Ex.
      * case_decide; [| done]. subst. congruence.
      * apply IH.
Qed.

Lemma get_user_run_update db op x :
  get_user (run_update db op) x
  = if decide (x = uo_id op)
    then apply_update (uo_update op) <$> get_user db x
    else get_user db x.
Proof. apply get_user_update_first, apply_update_id. Qed.

Lemma is_Some_get_user_run_update db op x :
  is_Some (get_user (run_update db op) x) ↔ is_Some (get_user db x).
Proof.
  rewrite get_user_run_update. case_decide; [| done].
  by rewrite fmap_is_Some.
Qed.

(** [$push]: the value joins the array of the addressed user, when there is
    such a user, and no other array changes. *)
Lemma elem_of_relation_push db t g v f x y :
  y ∈ relation f (run_update db (mkUpdateOne t (Push g v))) x
  ↔ y ∈ relation f db x ∨ (x = t ∧ f = g ∧ y = v ∧ is_Some (get_user db t)).
Proof.
  unfold relation. rewrite get_user_run_update. simpl.
  case_decide as Hx; [subst x |]; [| naive_solver].
  destruct (get_user db t) as [d|] eqn:Ed; simpl.
  - rewrite get_array_set_array. case_decide as Hf.
    + subst g. simpl. rewrite elem_of_app, list_elem_of_singleton.
      split; [intros [?|?]; [by left | right; eauto] | naive_solver].
    + naive_solver.
  - split; [by left | intros [? | (_ & _ & _ & [? ?])]; done].
Qed.

(** [$pull]: the value leaves the array of the addressed user and nothing
    else changes. *)
Lemma elem_of_relation_pull db t g v f x y :
  y ∈ relation f (run_update db (mkUpdateOne t (Pull g v))) x
  ↔ y ∈ relation f db x ∧ ¬ (x = t ∧ f = g ∧ y = v).
Proof.
  unfold relation. rewrite get_user_run_update. simpl.
  case_decide as Hx; [subst x |]; [| tauto].
  destruct (get_user db t) as [d|] eqn:Ed; simpl;
    [| split; [intros H; by apply elem_of_nil in H | tauto]].
  destruct (get_array g d) as [l|] eqn:El.
  - rewrite get_array_set_array. case_decide as Hf.
    + subst g. simpl. rewrite El. simpl. rewrite list_elem_of_filter. naive_solver.
    + naive_solver.
  - split; [| naive_solver]. intros H. split; [done |].
    intros (_ & -> & _). rewrite El in H. simpl in H. by apply elem_of_nil in H.
Qed.

(** ** Running the checks *)

Lemma bind_run {A B : Type} (m : Aio A) (k : A → Aio B) db :
  (m ≫= k) db
  = match m db with
    | (Returned a, db') => k a db'
    | (Raised e, db') => (Raised e, db')
    end.
Proof. reflexivity. Qed.

Lemma _valid_user_id_run x db :
  ∃ b : bool, _valid_user_id x false db = (Returned b, db)
              ∧ (b = true ↔ resolves db x).
Proof.
  eexists. split; [reflexivity |].
  rewrite bool_decide_eq_true, count_documents_pos. unfold resolves.
  split; intros (d & Hd & H); exists d; (split; [done |]).
  - apply andb_prop in H as [H H3]. apply andb_prop in H as [H1 H2].
    apply by_id_true in H1. apply bool_decide_eq_true in H2, H3. done.
  - destruct H as (H1 & H2 & H3).
    rewrite !andb_true_iff, by_id_true, !bool_decide_eq_true. done.
Qed.

Lemma _check_blocked_run c a db :
  unique_ids db →
  ∃ b : bool, _check_blocked c a db = (Returned b, db)
              ∧ (b = true ↔ a ∈ relation Fblocked db c).
Proof.
  intros Huniq. eexists. split; [reflexivity |].
  rewrite bool_decide_eq_true, count_documents_pos. unfold relation.
  split.
  - intros (d & Hd & H). apply andb_prop in H as [H1 H2].
    apply by_id_true in H1. apply bool_decide_eq_true in H2.
    by rewrite (get_user_unique db c d Huniq Hd H1).
  - destruct (get_user db c) as [d|] eqn:Ed; simpl;
      [| intros H; by apply elem_of_nil in H].
    intros H. apply get_user_Some in Ed as [Hd Hid]. exists d.
    rewrite andb_true_iff, by_id_true, bool_decide_eq_true. done.
Qed.

Lemma resolves_get_user db x : resolves db x → is_Some (get_user db x).
Proof.
  intros (d & Hd & Hid & _). unfold get_user. clear -Hd Hid.
  induction db as [|d' db IH]; [by apply elem_of_nil in Hd |].
  rewrite find_one_cons. destruct (by_id x d') eqn:E; [eauto |].
  apply elem_of_cons in Hd as [-> | Hd]; [| by apply IH].
  apply by_id_true in Hid. congruence.
Qed.

(** What a loaded [self] knows is what its document holds. *)
Lemma loaded_relations db self :
  loaded db self →
  is_Some (get_user db (_id self))
  ∧ blocked self = relation Fblocked db (_id self)
  ∧ friends self = relation Ffriends db (_id self)
  ∧ pendings_outgoing self = relation Fpendings_outgoing db (_id self)
  ∧ pendings_incoming self = relation Fpendings_incoming db (_id self).
Proof.
  intros (d & Hd & Hinit). unfold relation. rewrite Hd.
  destruct d. simpl in Hinit. injection Hinit as <-. simpl. eauto 10.
Qed.

(** ** The relations between two users *)

(** ** Sending a request *)

(** C4.  A non-bot actor A whose loaded state is current sends a request to
    B.  If B does not resolve to an existing, non-deleted, non-bot user, or B
    has blocked A, or A has blocked B, or B is in A's incoming pendings,
    outgoing pendings or friends, the call raises [InvalidUser] and writes
    nothing.  Otherwise it returns, and afterwards B is in A's outgoing
    pendings, A is in B's incoming pendings, and no other relation edge links
    the two (the collection has unique ids and stored its pairs matched). *)
Theorem send_friend_request_spec (self : UserModel) (B : ObjectId) (db : list Doc) :
  bot self = false →
  loaded db self →
  unique_ids db →
  matched_edges db (_id self) B →
  (refused db (_id self) B →
     ∃ msg, send_friend_request self B db = (Raised (InvalidUser msg), db))
  ∧ (¬ refused db (_id self) B →
     ∃ db', send_friend_request self B db = (Returned tt, db')
            ∧ B ∈ relation Fpendings_outgoing db' (_id self)
            ∧ _id self ∈ relation Fpendings_incoming db' B
            ∧ only_pending db' (_id self) B).
Proof.
  intros Hbot Hload Huniq Hmatch.
  destruct (loaded_relations _ _ Hload) as (Hself & Hbl & Hfr & Hpo & Hpi).
  destruct (_valid_user_id_run B db) as (bv & Hv & Hvalid).
  destruct (_check_blocked_run B (_id self) db Huniq) as (bb & Hb & Hblocked).
  unfold send_friend_request. rewrite Hbot, bind_run, Hv.
  destruct bv; simpl.
  2:{ split; [eauto |]. intros Hn. exfalso. apply Hn. left.
      intros Hr. apply Hvalid in Hr. discriminate. }
  assert (Hres : resolves db B) by by apply Hvalid.
  rewrite bind_run, Hb. destruct bb.
  { split; [eauto |]. intros Hn. exfalso. apply Hn. right; left. by apply Hblocked. }
  assert (Hnb : _id self ∉ relation Fblocked db B).
  { intros H. apply Hblocked in H. discriminate. }
  rewrite Hbl, Hpi, Hpo, Hfr.
  case_bool_decide as H1.
  { split; [eauto |]. intros Hn. exfalso. apply Hn. unfold refused. tauto. }
  case_bool_decide as H2; simpl.
  { split; [eauto |]. intros Hn. exfalso. apply Hn. unfold refused. tauto. }
  case_bool_decide as H3; simpl.
  { split; [eauto |]. intros Hn. exfalso. apply Hn. unfold refused. tauto. }
  case_bool_decide as H4; simpl.
  { split; [eauto |]. intros Hn. exfalso. apply Hn. unfold refused. tauto. }
  split.
  { intros [Hr | Hr]; [done |]. tauto. }
  intros _. eexists. split; [reflexivity |].
  pose proof (resolves_get_user _ _ Hres) as HB.
  destruct Hmatch as (Hm1 & Hm2 & Hm3).
  assert (Hstep : ∀ f x y,
    y ∈ relation f
          (run_update
             (run_update db (mkUpdateOne (_id self) (Push Fpendings_outgoing B)))
             (mkUpdateOne B (Push Fpendings_incoming (_id self)))) x
    ↔ y ∈ relation f db x
      ∨ (x = _id self ∧ f = Fpendings_outgoing ∧ y = B)
      ∨ (x = B ∧ f = Fpendings_incoming ∧ y = _id self)).
  { intros f x y. rewrite !elem_of_relation_push, is_Some_get_user_run_update. tauto. }
  simpl. split; [apply Hstep; tauto |]. split; [apply Hstep; tauto |].
  intros f x y Hxy. rewrite Hstep.
  destruct Hxy as [[-> ->] | [-> ->]]; destruct f; intuition congruence.
Qed.

(** Ann, just registered, asks Bob. *)
Lemma send_friend_request_spec_witness :
  ∃ db', send_friend_request ann 2 two_users = (Returned tt, db')
         ∧ 2%N ∈ relation Fpendings_outgoing db' 1
         ∧ 1%N ∈ relation Fpendings_incoming db' 2
         ∧ only_pending db' 1 2.
Proof.
  refine (proj2 (send_friend_request_spec ann 2 two_users _ _ _ _) _).
  - reflexivity.
  - exists (human 1 "Ann"). split; reflexivity.
  - unfold unique_ids. simpl. apply (bool_decide_unpack _). reflexivity.
  - unfold matched_edges. vm_compute relation.
    repeat split; intros H; by apply elem_of_nil in H.
  - unfold refused. vm_compute relation.
    intros [H | [H | [H | [H | [H | H]]]]]; try by apply elem_of_nil in H.
    apply H. exists (human 2 "Bob"). repeat split. right. left.
Defined.

(** ** Answering a request *)

Lemma get_array_apply_other f g v d :
  f ≠ g →
  get_array f (apply_update (Push g v) d) = get_array f d
  ∧ get_array f (apply_update (Pull g v) d) = get_array f d.
Proof.
  intros Hfg. simpl. split.
  - rewrite get_array_set_array. by case_decide.
  - destruct (get_array g d); [| done].
    rewrite get_array_set_array. by case_decide.
Qed.

Lemma relation_run_update_other db op f x :
  (∀ d, get_array f (apply_update (uo_update op) d) = get_array f d) →
  relation f (run_update db op) x = relation f db x.
Proof.
  intros Hu. unfold relation. rewrite get_user_run_update.
  case_decide; [| done]. destruct (get_user db x) as [d|]; [| done].
  simpl. by rewrite Hu.
Qed.

Lemma relation_push_other db t g v f x :
  f ≠ g → relation f (run_update db (mkUpdateOne t (Push g v))) x = relation f db x.
Proof.
  intros Hfg. apply relation_run_update_other. intros d.
  by apply get_array_apply_other.
Qed.

Lemma relation_pull_other db t g v f x :
  f ≠ g → relation f (run_update db (mkUpdateOne t (Pull g v))) x = relation f db x.
Proof.
  intros Hfg. apply relation_run_update_other. intros d.
  by apply get_array_apply_other.
Qed.

Lemma is_Some_relation db f x y : y ∈ relation f db x → is_Some (get_user db x).
Proof.
  unfold relation. destruct (get_user db x); [eauto |].
  intros H. by apply elem_of_nil in H.
Qed.

(** C5.  A has asked B (A is in B's incoming pendings and B in A's outgoing
    pendings) and B, not a bot and loaded from the collection, answers.  With
    [confirm] the call is one batch of four requests that removes both
    pending edges and makes each of the two a friend of the other; without
    [confirm] it removes both pending edges and leaves every friends array
    as it was.  If A is not in B's incoming pendings the call raises
    [UserNotInGroup] and writes nothing. *)
Theorem response_friend_request_spec (self : UserModel) (A : ObjectId) (db : list Doc) :
  bot self = false →
  loaded db self →
  (A ∈ relation Fpendings_incoming db (_id self) →
   _id self ∈ relation Fpendings_outgoing db A →
     (response_friend_request self A true
      = bulk_write [
          mkUpdateOne A (Pull Fpendings_outgoing (_id self));
          mkUpdateOne (_id self) (Pull Fpendings_incoming A);
          mkUpdateOne (_id self) (Push Ffriends A);
          mkUpdateOne A (Push Ffriends (_id self)) ])
     ∧ (∃ db', response_friend_request self A true db = (Returned tt, db')
               ∧ (A ∉ relation Fpendings_incoming db' (_id self))
               ∧ (_id self ∉ relation Fpendings_outgoing db' A)
               ∧ _id self ∈ relation Ffriends db' A
               ∧ A ∈ relation Ffriends db' (_id self))
     ∧ (∃ db', response_friend_request self A false db = (Returned tt, db')
               ∧ (A ∉ relation Fpendings_incoming db' (_id self))
               ∧ (_id self ∉ relation Fpendings_outgoing db' A)
               ∧ ∀ x, relation Ffriends db' x = relation Ffriends db x))
  ∧ (A ∉ relation Fpendings_incoming db (_id self) →
     ∀ confirm, ∃ msg,
       response_friend_request self A confirm db = (Raised (UserNotInGroup msg), db)).
Proof.
  intros Hbot Hload.
  destruct (loaded_relations _ _ Hload) as (Hself & Hbl & Hfr & Hpo & Hpi).
  unfold response_friend_request. rewrite Hbot, Hpi. split.
  - intros Hin Hout. rewrite bool_decide_eq_true_2 by done. simpl.
    pose proof (is_Some_relation _ _ _ _ Hout) as HA.
    split; [done |]. split.
    + eexists. split; [reflexivity |]. simpl.
      rewrite !elem_of_relation_push, !elem_of_relation_pull,
        !is_Some_get_user_run_update.
      intuition congruence.
    + eexists. split; [reflexivity |]. simpl.
      rewrite !elem_of_relation_pull.
      split; [intuition congruence |]. split; [intuition congruence |].
      intros x. by rewrite !relation_pull_other.
  - intros Hnot confirm. rewrite bool_decide_eq_false_2 by done. simpl. eauto.
Qed.

(** Bob confirms the request Ann has sent him. *)
Lemma response_friend_request_spec_witness :
  ∃ db', response_friend_request bob_asked 1 true requested = (Returned tt, db')
         ∧ (1%N ∉ relation Fpendings_incoming db' 2)
         ∧ (2%N ∉ relation Fpendings_outgoing db' 1)
         ∧ 2%N ∈ relation Ffriends db' 1
         ∧ 1%N ∈ relation Ffriends db' 2.
Proof.
  refine (proj1 (proj2 (proj1
    (response_friend_request_spec bob_asked 1 requested _ _) _ _))).
  - reflexivity.
  - eexists. split; reflexivity.
  - vm_compute relation. left.
  - vm_compute relation. left.
Defined.

(** ** Validation comes before the writes *)

Lemma bulk_write_returns op ops db :
  bulk_write (op :: ops) db = (Returned tt, foldl run_update db (op :: ops)).
Proof. reflexivity. Qed.

Ltac raise_or_write :=
  repeat match goal with
  | |- context [bool_decide ?P] => destruct (bool_decide P) eqn:?; simpl
  | |- context [if ?b then _ else _] => destruct b eqn:?; simpl
  end;
  unfold raise, update_one, write;
  try rewrite bulk_write_returns;
  intros; simplify_eq; try done.

Lemma send_friend_request_no_write self x :
  no_write_on_error (send_friend_request self x).
Proof.
  intros db e db'. unfold send_friend_request.
  destruct (bot self); [unfold raise; by intros [= _ <-] |].
  rewrite bind_run. destruct (_valid_user_id_run x db) as (bv & -> & _).
  destruct bv; simpl; [| unfold raise; by intros [= _ <-]].
  rewrite bind_run.
  change (_check_blocked x (_id self) db) with
    (Returned (bool_decide (count_documents (λ d,
        by_id x d && bool_decide (_id self ∈ default [] (doc_blocked d))) db ≠ 0%nat)), db).
  raise_or_write.
Qed.

Lemma response_friend_request_no_write self x confirm :
  no_write_on_error (response_friend_request self x confirm).
Proof.
  intros db e db'. unfold response_friend_request. destruct confirm; raise_or_write.
Qed.

Lemma cancel_friend_request_no_write self x :
  no_write_on_error (cancel_friend_request self x).
Proof. intros db e db'. unfold cancel_friend_request. raise_or_write. Qed.

Lemma delete_friend_no_write self x :
  no_write_on_error (delete_friend self x).
Proof. intros db e db'. unfold delete_friend. raise_or_write. Qed.

Lemma block_user_no_write self x :
  no_write_on_error (block_user self x).
Proof.
  intros db e db'. unfold block_user.
  rewrite bind_run. destruct (_valid_user_id_run x db) as (bv & -> & _).
  destruct bv; simpl; raise_or_write.
Qed.

Lemma unblock_user_no_write self x :
  no_write_on_error (unblock_user self x).
Proof. intros db e db'. unfold unblock_user. raise_or_write. Qed.

(** What a successful [block_user] did to the blocked arrays: the target was
    appended to the actor's, if the actor has a document. *)
Lemma block_user_returned self x db db' :
  block_user self x db = (Returned tt, db') →
  (is_Some (get_user db' (_id self)) → x ∈ relation Fblocked db' (_id self)).
Proof.
  unfold block_user.
  rewrite bind_run. destruct (_valid_user_id_run x db) as (bv & -> & _).
  destruct bv; simpl; [| unfold raise; by intros [=]].
  destruct (bool_decide (x ∈ blocked self)); simpl; [unfold raise; by intros [=] |].
  destruct (bool_decide (x ∈ pendings_incoming self));
    destruct (bool_decide (x ∈ pendings_outgoing self));
    destruct (bool_decide (x ∈ friends self)); simpl;
    intros [= <-];
    rewrite ?is_Some_get_user_run_update, ?elem_of_relation_pull,
      ?elem_of_relation_push;
    intuition congruence.
Qed.

(** C6.  Each of the six relationship operations validates before it writes:
    whenever one of them raises, whatever the exception, the collection is
    what it was before the call.  And blocking twice fails the second time:
    once [block_user] has returned, the same call by the actor reloaded from
    the collection raises [UserNotInGroup] and changes nothing. *)
Theorem validation_before_write (self : UserModel) (x : ObjectId) (confirm : bool) :
  no_write_on_error (send_friend_request self x)
  ∧ no_write_on_error (response_friend_request self x confirm)
  ∧ no_write_on_error (cancel_friend_request self x)
  ∧ no_write_on_error (delete_friend self x)
  ∧ no_write_on_error (block_user self x)
  ∧ no_write_on_error (unblock_user self x)
  ∧ (∀ db db' self',
       block_user self x db = (Returned tt, db') →
       loaded db' self' →
       _id self' = _id self →
       ∃ msg, block_user self' x db' = (Raised (UserNotInGroup msg), db')).
Proof.
  repeat split;
    auto using send_friend_request_no_write, response_friend_request_no_write,
      cancel_friend_request_no_write, delete_friend_no_write,
      block_user_no_write, unblock_user_no_write.
  intros db db' self' Hfirst Hload Hid.
  destruct (loaded_relations _ _ Hload) as (Hself & Hbl & _).
  rewrite Hid in Hself, Hbl.
  pose proof (block_user_returned _ _ _ _ Hfirst Hself) as Hin.
  unfold block_user. rewrite bind_run.
  destruct (_valid_user_id_run x db') as (bv & -> & _).
  rewrite Hbl, (bool_decide_eq_true_2 _ Hin), orb_true_r. simpl. eauto.
Qed.

(** Bob has blocked Ann and, loaded again, blocks her once more. *)
Lemma validation_before_write_witness :
  ∃ msg, block_user bob_blocking 1 bob_blocked_ann
         = (Raised (UserNotInGroup msg), bob_blocked_ann).
Proof.
  refine (proj2 (proj2 (proj2 (proj2 (proj2 (proj2
    (validation_before_write bob 1 true))))))
    two_users bob_blocked_ann bob_blocking _ _ _).
  - reflexivity.
  - eexists. split; reflexivity.
  - reflexivity.
Defined.

(** The reload matters: [block_user] does not touch the in-memory copy, so
    the second call on the copy loaded before the first one passes the check
    again and pushes the target a second time. *)
Example block_user_twice_on_a_stale_copy :
  block_user bob 1 (snd (block_user bob 1 two_users))
  = (Returned tt,
     [human 1 "Ann"; set_array Fblocked (Some [1%N; 1%N]) (human 2 "Bob")]).
Proof. reflexivity. Qed.

(** ** Bot actors *)

(** C2, as the code has it.  For an actor whose bot flag is set,
    [send_friend_request], [response_friend_request],
    [cancel_friend_request] and [delete_friend] raise [UnavailableForBots]
    and write nothing.  [block_user] and [unblock_user] never look at the
    flag: they do for a bot what they do for anyone. *)
Theorem bot_guarded_operations (self : UserModel) (x : ObjectId)
    (confirm : bool) (db : list Doc) :
  bot self = true →
  send_friend_request self x db = (Raised UnavailableForBots, db)
  ∧ response_friend_request self x confirm db = (Raised UnavailableForBots, db)
  ∧ cancel_friend_request self x db = (Raised UnavailableForBots, db)
  ∧ delete_friend self x db = (Raised UnavailableForBots, db)
  ∧ block_user self x db = block_user (set_bot false self) x db
  ∧ unblock_user self x db = unblock_user (set_bot false self) x db.
Proof.
  intros Hbot.
  unfold send_friend_request, response_friend_request, cancel_friend_request,
    delete_friend.
  rewrite Hbot. repeat split; reflexivity.
Qed.

(** The bot of Ann tries each operation on Bob. *)
Lemma bot_guarded_operations_witness :
  send_friend_request robot 2 with_robot = (Raised UnavailableForBots, with_robot)
  ∧ response_friend_request robot 2 true with_robot
    = (Raised UnavailableForBots, with_robot)
  ∧ cancel_friend_request robot 2 with_robot = (Raised UnavailableForBots, with_robot)
  ∧ delete_friend robot 2 with_robot = (Raised UnavailableForBots, with_robot)
  ∧ block_user robot 2 with_robot = block_user (set_bot false robot) 2 with_robot
  ∧ unblock_user robot 2 with_robot = unblock_user (set_bot false robot) 2 with_robot.
Proof.
  apply (bot_guarded_operations robot 2 true with_robot). reflexivity.
Defined.

(** C2 as stated fails: a bot blocks a user, the call returns and the bot's
    blocked array has grown. *)
Lemma bot_blocks_a_user :
  bot robot = true
  ∧ loaded with_robot robot
  ∧ block_user robot 2 with_robot
    = (Returned tt,
       [human 1 "Ann"; human 2 "Bob";
        set_array Fblocked (Some [2%N]) (bot_doc 3 1 "Robo")])
  ∧ relation Fblocked with_robot 3 = []
  ∧ relation Fblocked (snd (block_user robot 2 with_robot)) 3 = [2%N].
Proof.
  split; [reflexivity |]. split; [eexists; split; reflexivity |].
  repeat split; reflexivity.
Qed.

(** ** Blocking *)

(** C1 at the request scenario.  Ann has asked Bob; Bob, loaded from the
    collection, blocks Ann.  The call returns and Ann is in Bob's blocked
    array, but the two pulls of that branch address Bob's outgoing and Ann's
    incoming pendings, so the request stays stored on both sides. *)
Theorem block_user_keeps_pending_request :
  loaded requested bob_asked
  ∧ block_user bob_asked 1 requested
    = (Returned tt,
       [set_array Fpendings_outgoing (Some [2%N]) (human 1 "Ann");
        set_array Fblocked (Some [1%N])
          (set_array Fpendings_incoming (Some [1%N]) (human 2 "Bob"))])
  ∧ 1%N ∈ relation Fblocked (snd (block_user bob_asked 1 requested)) 2
  ∧ 1%N ∈ relation Fpendings_incoming (snd (block_user bob_asked 1 requested)) 2
  ∧ 2%N ∈ relation Fpendings_outgoing (snd (block_user bob_asked 1 requested)) 1.
Proof.
  split; [eexists; split; reflexivity |].
  split; [reflexivity |].
  vm_compute relation. repeat split; left.
Qed.

(** The same in general: whenever another user is in the actor's incoming
    pendings only, a successful [block_user] leaves it there; a friendship,
    on the other hand, is removed on both sides. *)
Lemma block_user_effect self B db db' :
  loaded db self →
  block_user self B db = (Returned tt, db') →
  (B ≠ _id self →
   B ∈ relation Fpendings_incoming db (_id self) →
   B ∉ relation Fpendings_outgoing db (_id self) →
   B ∈ relation Fpendings_incoming db' (_id self))
  ∧ (B ∉ relation Ffriends db' (_id self))
  ∧ (B ∈ relation Ffriends db (_id self) → _id self ∉ relation Ffriends db' B).
Proof.
  intros Hload.
  destruct (loaded_relations _ _ Hload) as (Hself & Hbl & Hfr & Hpo & Hpi).
  unfold block_user.
  rewrite bind_run. destruct (_valid_user_id_run B db) as (bv & -> & _).
  destruct bv; simpl; [| unfold raise; by intros [=]].
  rewrite Hbl, Hfr, Hpo, Hpi.
  case_bool_decide; simpl; [unfold raise; by intros [=] |].
  repeat case_bool_decide; simpl; intros [= <-];
    rewrite ?elem_of_relation_pull, ?elem_of_relation_push;
    intuition congruence.
Qed.

(** ** Deleted counterparts *)

Lemma marked_deleted_not_resolves db x :
  unique_ids db → marked_deleted db x → ¬ resolves db x.
Proof.
  intros Huniq (d & Hd & Hdel) (d' & Hin & Hid & _ & Hnone).
  rewrite (get_user_unique db x d' Huniq Hin Hid) in Hd.
  injection Hd as ->. rewrite Hnone in Hdel. by destruct Hdel.
Qed.

(** [ann_gone] is the collection after Ann's request to Bob and the two
    updates that [delete_user] prepares for her document, applied in their
    order. *)
Lemma ann_gone_reached :
  foldl run_update (snd (send_friend_request ann 2 two_users))
        (operations_of (bulk_user_removing ann))
  = ann_gone.
Proof. reflexivity. Qed.

Lemma doc_deleted_apply_pull g v d :
  doc_deleted (apply_update (Pull g v) d) = doc_deleted d.
Proof. simpl. destruct (get_array g d); [| done]. by destruct g, d. Qed.

Lemma marked_deleted_pull db t g v x :
  marked_deleted db x →
  marked_deleted (run_update db (mkUpdateOne t (Pull g v))) x.
Proof.
  intros (d & Hd & Hdel). unfold marked_deleted.
  rewrite get_user_run_update, Hd. cbn [uo_id uo_update].
  case_decide; [| by eexists].
  eexists. split; [reflexivity |]. by rewrite doc_deleted_apply_pull.
Qed.

(** C9 as stated fails: Bob still has the request of Ann, whose document is
    marked deleted by now; he declines it, the call returns and takes Ann
    out of his incoming pendings. *)
Lemma deleted_requester_declined :
  marked_deleted ann_gone 1
  ∧ loaded ann_gone bob_asked
  ∧ 1%N ∈ pendings_incoming bob_asked
  ∧ response_friend_request bob_asked 1 false ann_gone
    = (Returned tt,
       [mkDoc 1 "Ann" 0 false (Some true) None None None None None
              None None None None (Some "Ann") (Some "digest") (Some "salt");
        set_array Fpendings_incoming (Some []) (human 2 "Bob")]).
Proof.
  split; [eexists; split; [reflexivity | by eexists] |].
  split; [eexists; split; reflexivity |].
  split; [left | reflexivity].
Qed.

(** C9, as the code has it.  When the counterpart's document is marked
    deleted, [send_friend_request] raises [InvalidUser] (for a bot actor
    [UnavailableForBots], as for any counterpart) and [block_user] raises
    [UserNotInGroup]; neither writes, whatever the actor's loaded relation
    sets hold.  The operations that take an edge away do not look the
    counterpart up.  For an actor that is no bot, [cancel_friend_request],
    [delete_friend] and a declining [response_friend_request] go by the one
    loaded set they test: without the deleted user in it they raise
    [UserNotInGroup] and write nothing; with the deleted user in it they
    return, and their two pulls remove that edge from the actor's array (and
    the actor from the matching array of the deleted user, if it is there),
    change no other membership of any relation array, and leave the deleted
    user's document marked deleted. *)
Theorem deleted_counterpart (self : UserModel) (x : ObjectId) (db : list Doc) :
  unique_ids db →
  marked_deleted db x →
  (if bot self
   then send_friend_request self x db = (Raised UnavailableForBots, db)
   else ∃ msg, send_friend_request self x db = (Raised (InvalidUser msg), db))
  ∧ (∃ msg, block_user self x db = (Raised (UserNotInGroup msg), db))
  ∧ (bot self = false →
       (x ∈ pendings_outgoing self →
          ∃ db', cancel_friend_request self x db = (Returned tt, db')
                 ∧ marked_deleted db' x
                 ∧ ∀ f z y,
                     y ∈ relation f db' z
                     ↔ y ∈ relation f db z
                       ∧ ¬ (z = _id self ∧ f = Fpendings_outgoing ∧ y = x)
                       ∧ ¬ (z = x ∧ f = Fpendings_incoming ∧ y = _id self))
       ∧ (x ∉ pendings_outgoing self →
          ∃ msg, cancel_friend_request self x db = (Raised (UserNotInGroup msg), db))
       ∧ (x ∈ friends self →
          ∃ db', delete_friend self x db = (Returned tt, db')
                 ∧ marked_deleted db' x
                 ∧ ∀ f z y,
                     y ∈ relation f db' z
                     ↔ y ∈ relation f db z
                       ∧ ¬ (z = _id self ∧ f = Ffriends ∧ y = x)
                       ∧ ¬ (z = x ∧ f = Ffriends ∧ y = _id self))
       ∧ (x ∉ friends self →
          ∃ msg, delete_friend self x db = (Raised (UserNotInGroup msg), db))
       ∧ (x ∈ pendings_incoming self →
          ∃ db', response_friend_request self x false db = (Returned tt, db')
                 ∧ marked_deleted db' x
                 ∧ ∀ f z y,
                     y ∈ relation f db' z
                     ↔ y ∈ relation f db z
                       ∧ ¬ (z = x ∧ f = Fpendings_outgoing ∧ y = _id self)
                       ∧ ¬ (z = _id self ∧ f = Fpendings_incoming ∧ y = x))
       ∧ (x ∉ pendings_incoming self →
          ∃ msg, response_friend_request self x false db
                 = (Raised (UserNotInGroup msg), db))).
Proof.
  intros Huniq Hdel.
  pose proof (marked_deleted_not_resolves _ _ Huniq Hdel) as Hnr.
  destruct (_valid_user_id_run x db) as (bv & Hv & Hvalid).
  assert (bv = false) as -> by (destruct bv; [exfalso; by apply Hnr, Hvalid | done]).
  split; [| split].
  - unfold send_friend_request. destruct (bot self); [done |].
    rewrite bind_run, Hv. simpl. by eexists.
  - unfold block_user. rewrite bind_run, Hv. simpl. by eexists.
  - intros Hbot.
    unfold response_friend_request, cancel_friend_request, delete_friend.
    rewrite Hbot.
    repeat split; intros Hin;
      first [ rewrite bool_decide_eq_true_2 by done
            | rewrite bool_decide_eq_false_2 by done ];
      simpl; try (by eexists);
      (eexists; split; [reflexivity |]; split;
       [by do 2 apply marked_deleted_pull
       | intros f z y; rewrite !elem_of_relation_pull; tauto]).
Qed.

(** Bob and the deleted account of Ann, whose request he still holds. *)
Lemma deleted_counterpart_witness :
  (∃ msg, send_friend_request bob_asked 1 ann_gone = (Raised (InvalidUser msg), ann_gone))
  ∧ (∃ msg, block_user bob_asked 1 ann_gone = (Raised (UserNotInGroup msg), ann_gone))
  ∧ (∃ msg, cancel_friend_request bob_asked 1 ann_gone
            = (Raised (UserNotInGroup msg), ann_gone))
  ∧ (∃ msg, delete_friend bob_asked 1 ann_gone
            = (Raised (UserNotInGroup msg), ann_gone))
  ∧ (∃ db', response_friend_request bob_asked 1 false ann_gone = (Returned tt, db')
            ∧ marked_deleted db' 1
            ∧ ∀ f z y,
                y ∈ relation f db' z
                ↔ y ∈ relation f ann_gone z
                  ∧ ¬ (z = 1%N ∧ f = Fpendings_outgoing ∧ y = 2%N)
                  ∧ ¬ (z = 2%N ∧ f = Fpendings_incoming ∧ y = 1%N)).
Proof.
  assert (Huniq : unique_ids ann_gone)
    by (unfold unique_ids; apply (bool_decide_unpack _); reflexivity).
  assert (Hdel : marked_deleted ann_gone 1)
    by (eexists; split; [reflexivity | by eexists]).
  destruct (deleted_counterpart bob_asked 1 ann_gone Huniq Hdel)
    as (Hsend & Hblock & Hedges).
  destruct (Hedges eq_refl) as (_ & Hcancel & _ & Hremove & Hdecline & _).
  split; [exact Hsend |]. split; [exact Hblock |].
  split; [apply Hcancel; by apply not_elem_of_nil |].
  split; [apply Hremove; by apply not_elem_of_nil |].
  apply Hdecline. left.
Defined.

(** ** Registration of bots *)

Lemma registrate_bot_run nick owner new_token now new_id db :
  registrate_bot nick owner new_token now new_id db
  = if (20 <? bots_of owner db)%nat
    then (Raised (ValueError "Too many bots"), db)
    else
      let new_user :=
        mkDoc new_id nick now true None (Some new_token) (Some online) None None
              (Some owner) (Some []) (Some []) (Some []) (Some []) None None None in
      match insert_one new_user db with
      | (Returned _, db') => (UserModel_init new_user, db')
      | (Raised e, db') => (Raised e, db')
      end.
Proof.
  cbv beta iota zeta
    delta [registrate_bot bots_of mbind Aio_bind query raise lift_outcome].
  by destruct (20 <? _)%nat.
Qed.

(** What the guard of [registrate_bot] does: above twenty counted bots the
    call raises and inserts nothing; up to and including twenty it inserts a
    bot owned by [owner], given a fresh id. *)
Lemma registrate_bot_guard nick owner new_token now new_id db :
  ((20 < bots_of owner db)%nat →
     registrate_bot nick owner new_token now new_id db
     = (Raised (ValueError "Too many bots"), db))
  ∧ ((bots_of owner db ≤ 20)%nat →
     get_user db new_id = None →
     ∃ u d, registrate_bot nick owner new_token now new_id db
            = (Returned u, db ++ [d])
            ∧ doc_id d = new_id ∧ doc_bot d = true ∧ doc_parent d = Some owner
            ∧ _id u = new_id ∧ bot u = true ∧ parent u = Some owner).
Proof.
  rewrite registrate_bot_run.
  destruct (Nat.ltb_spec 20 (bots_of owner db)) as [Hlt | Hge].
  - split; [done | lia].
  - split; [lia |]. intros _ Hfresh. unfold get_user in Hfresh.
    unfold insert_one. simpl. rewrite Hfresh.
    do 2 eexists. split; [reflexivity |]. done.
Qed.

(** C3 at the cap.  Ann already owns twenty bots that are not deleted; the
    call still returns, the new bot is inserted and she owns twenty-one. *)
Theorem registrate_bot_at_cap :
  bots_of 1 twenty_bots = 20%nat
  ∧ registrate_bot "extra" 1 "token" 0 22 twenty_bots
    = (Returned {| _id := 22; nick := "extra"; created_at := 0; bot := true;
                   deleted := false; token := Some "token"%string; status := online;
                   text_status := ""; code := None; parent := Some 1%N;
                   blocked := []; friends := [];
                   pendings_outgoing := []; pendings_incoming := [] |},
       twenty_bots ++
       [mkDoc 22 "extra" 0 true None (Some "token"%string) (Some online) None None
              (Some 1%N) (Some []) (Some []) (Some []) (Some []) None None None])
  ∧ bots_of 1 (snd (registrate_bot "extra" 1 "token" 0 22 twenty_bots)) = 21%nat.
Proof. repeat split; vm_compute; reflexivity. Qed.

(** ** Listings *)

Lemma UserModel_init_public d :
  ∃ u, UserModel_init (exclude EXCLUDE_PUBLIC d) = Returned u
       ∧ status u = offline
       ∧ parent u = None
       ∧ token u = None
       ∧ code u = None
       ∧ blocked u = [] ∧ friends u = []
       ∧ pendings_outgoing u = [] ∧ pendings_incoming u = [].
Proof. destruct d. eexists. split; [reflexivity |]. repeat split. Qed.

Lemma collect_public_offline (users : list Doc) :
  Forall (λ u, ∃ d, u = exclude EXCLUDE_PUBLIC d) users →
  ∃ ps, collect_public users = Returned ps
        ∧ Forall (λ p, pd_status p = offline) ps
        ∧ length ps = length users.
Proof.
  induction 1 as [| u users (d & ->) _ (ps & Hps & Hall & Hlen)].
  - exists []. repeat split. constructor.
  - destruct (UserModel_init_public d) as (um & Hum & Hst & _).
    exists (public_dict um :: ps). cbn [collect_public]. rewrite Hum, Hps.
    repeat split; [| simpl; by rewrite Hlen]. by constructor.
Qed.

Lemma find_excluded flt projection db :
  Forall (λ u, ∃ d, u = exclude projection d) (find flt projection db).
Proof.
  unfold find. apply Forall_fmap, Forall_forall. intros d _. by exists d.
Qed.

Lemma length_find flt projection db :
  length (find flt projection db) = count_documents flt db.
Proof. unfold find, count_documents. by rewrite length_fmap. Qed.

(** C10.  Both listings return, and every profile in them reports the
    offline default, whatever status the documents store: the projection
    [EXCLUDE_PUBLIC] leaves [status] out, and with it [parent], the four
    relation arrays, the token, the friend code and the credentials.  (The
    blocked listing has one profile per document asked for; so has the
    friends listing of an actor that is no bot.) *)
Theorem listings_report_offline (self : UserModel) (ids : list ObjectId) (db : list Doc) :
  (∃ ps, get_friends self ids db = (Returned ps, db)
         ∧ Forall (λ p, pd_status p = offline) ps
         ∧ length ps = if bot self then 0%nat else asked_for ids db)
  ∧ (∃ ps, get_blocked self ids db = (Returned ps, db)
           ∧ Forall (λ p, pd_status p = offline) ps
           ∧ length ps = asked_for ids db)
  ∧ (∀ d, doc_status (exclude EXCLUDE_PUBLIC d) = None
          ∧ doc_parent (exclude EXCLUDE_PUBLIC d) = None
          ∧ (∀ f, get_array f (exclude EXCLUDE_PUBLIC d) = None)
          ∧ doc_token (exclude EXCLUDE_PUBLIC d) = None
          ∧ doc_code (exclude EXCLUDE_PUBLIC d) = None
          ∧ doc_login (exclude EXCLUDE_PUBLIC d) = None
          ∧ doc_password (exclude EXCLUDE_PUBLIC d) = None
          ∧ doc_salt (exclude EXCLUDE_PUBLIC d) = None).
Proof.
  split; [| split].
  - unfold get_friends. destruct (bot self).
    { exists []. repeat split. constructor. }
    pose (users := merge_sort nick_descending
            (find (λ d, bool_decide (doc_id d ∈ ids)) EXCLUDE_PUBLIC db)).
    destruct (collect_public_offline users) as (ps & Hps & Hall & Hlen).
    { unfold users. rewrite merge_sort_Permutation. apply find_excluded. }
    exists ps. rewrite bind_run. unfold query, lift_outcome. fold users.
    rewrite Hps. repeat split; [done |].
    rewrite Hlen. unfold users. rewrite merge_sort_Permutation.
    apply length_find.
  - unfold get_blocked.
    destruct (collect_public_offline
                (find (λ d, bool_decide (doc_id d ∈ ids)) EXCLUDE_PUBLIC db))
      as (ps & Hps & Hall & Hlen); [apply find_excluded |].
    exists ps. rewrite bind_run. unfold query, lift_outcome.
    rewrite Hps. repeat split; [done |]. rewrite Hlen. apply length_find.
  - intros d. destruct d. repeat split. by intros [].
Qed.

(** Bob lists Ann, whose document stores the status online. *)
Example listing_of_an_online_user :
  doc_status (human 1 "Ann") = Some online
  ∧ get_blocked bob [1%N] two_users
    = (Returned [ {| pd_id := 1; pd_status := offline; pd_text_status := "";
                     pd_bot := false; pd_nick := "Ann"; pd_created_at := 0;
                     pd_deleted := None |} ],
       two_users).
Proof. split; reflexivity. Qed.

(** ** Authorization by login and password *)

Section CredentialsFacts.

Variable sha256_hexdigest : string → string.
Variable pbkdf2_hmac_hex : string → string → N → string.

Lemma non_empty_true s : s ≠ EmptyString → non_empty s = true.
Proof. intros H. unfold non_empty. by rewrite bool_decide_eq_false_2. Qed.

(** The password path, step by step: the salt lookup, then the lookup by
    login hash and digest. *)
Lemma authorize_password_path login password db :
  login ≠ EmptyString →
  password ≠ EmptyString →
  authorize sha256_hexdigest pbkdf2_hmac_hex login password "" db
  = match find_one (λ d, bool_decide (doc_login d = Some (sha256_hexdigest login))) db with
    | None => (Raised (TypeError "'NoneType' object is not subscriptable"), db)
    | Some found =>
      match doc_salt found with
      | None => (Raised (KeyError "salt"), db)
      | Some salt =>
        match find_one (λ d,
                bool_decide (doc_login d = Some (sha256_hexdigest login))
                && bool_decide (doc_password d
                                = Some (pbkdf2_hmac_hex password salt 100000))) db with
        | None => (Raised (InvalidUser "No such user"), db)
        | Some user => (UserModel_init (exclude [Flogin; Fpassword; Fsalt] user), db)
        end
      end
    end.
Proof.
  intros Hl Hp.
  cbv beta iota zeta
    delta [authorize _get_salt_hashed_login mbind Aio_bind mret Aio_ret
           query raise lift_outcome].
  rewrite (non_empty_true _ Hl), (non_empty_true _ Hp).
  change (non_empty "") with false. change (true && true) with true.
  cbv beta iota.
  destruct (find_one _ db) as [found|]; [| done].
  destruct (doc_salt found) as [salt|]; [| done].
  by destruct (find_one _ db).
Qed.

(** A wrong password: the login is known and salted, no document carries
    the digest of what was typed.  This mismatch is an [InvalidUser]. *)
Lemma authorize_wrong_password login password db found salt :
  login ≠ EmptyString →
  password ≠ EmptyString →
  find_one (λ d, bool_decide (doc_login d = Some (sha256_hexdigest login))) db
  = Some found →
  doc_salt found = Some salt →
  (∀ d, d ∈ db → doc_password d ≠ Some (pbkdf2_hmac_hex password salt 100000)) →
  authorize sha256_hexdigest pbkdf2_hmac_hex login password "" db
  = (Raised (InvalidUser "No such user"), db).
Proof.
  intros Hl Hp Hfound Hsalt Hno.
  rewrite authorize_password_path by done.
  rewrite Hfound, Hsalt.
  destruct (find_one (λ d, _ && _) db) as [user|] eqn:E; [| done].
  exfalso. unfold find_one in E. apply head_Some_elem_of in E.
  apply list_elem_of_filter in E as [Hm Hin].
  apply andb_prop_elim in Hm as [_ Hm].
  apply bool_decide_unpack in Hm. by apply (Hno user).
Qed.

(** C8 at an unknown login.  No document carries the hash of the login: the
    salt lookup finds nothing, the subscript on its result fails, and what
    the caller gets is a [TypeError], not [InvalidUser]. *)
Theorem authorize_unknown_login (login password : string) (db : list Doc) :
  login ≠ EmptyString →
  password ≠ EmptyString →
  (∀ d, d ∈ db → doc_login d ≠ Some (sha256_hexdigest login)) →
  authorize sha256_hexdigest pbkdf2_hmac_hex login password "" db
  = (Raised (TypeError "'NoneType' object is not subscriptable"), db).
Proof.
  intros Hl Hp Hno. rewrite authorize_password_path by done.
  destruct (find_one _ db) as [found|] eqn:E; [| done].
  exfalso. unfold find_one in E. apply head_Some_elem_of in E.
  apply list_elem_of_filter in E as [Hm Hin].
  apply bool_decide_unpack in Hm. by apply (Hno found).
Qed.

End CredentialsFacts.

(** Nobody has registered the login bob. *)
Lemma authorize_unknown_login_witness :
  authorize toy_sha256 toy_pbkdf2 "bob" "secret" "" ann_registered
  = (Raised (TypeError "'NoneType' object is not subscriptable"), ann_registered).
Proof.
  apply (authorize_unknown_login toy_sha256 toy_pbkdf2 "bob" "secret" ann_registered).
  - discriminate.
  - discriminate.
  - intros d Hd. apply list_elem_of_singleton in Hd as ->. discriminate.
Defined.

(** On the same collection the right password is accepted and a wrong one
    refused with [InvalidUser]. *)
Example authorize_ann :
  (∃ u, authorize toy_sha256 toy_pbkdf2 "ann" "secret" "" ann_registered
        = (Returned u, ann_registered) ∧ _id u = 1%N)
  ∧ authorize toy_sha256 toy_pbkdf2 "ann" "guess" "" ann_registered
    = (Raised (InvalidUser "No such user"), ann_registered).
Proof. split; [eexists; split; reflexivity | reflexivity]. Qed.

(** ** The delivery loop *)

Section NotifierFacts.

Context {Message : Type}.
Variable str : Message → string.

(** Popping [n] messages off a pool that holds at least [n]: the first [n]
    go out in order, the arrivals of the [n] sends queue up behind the rest,
    and [pop] never finds the pool empty. *)
Lemma flush_sends_prefix n arriving (self : WebsocketNotifier Message) wire :
  (n ≤ length (message_pool self))%nat →
  flush str n arriving self wire
  = Returned
      (mkNotifier (activated self)
         (drop n (message_pool self) ++ concat (take n arriving)),
       wire ++ (str <$> take n (message_pool self))).
Proof.
  revert arriving self wire.
  induction n as [|n IH]; intros arriving [act pool] wire Hn; simpl in *.
  - by rewrite !app_nil_r.
  - destruct pool as [|message rest]; simpl in *; [lia |].
    rewrite IH by (simpl; rewrite length_app; lia). simpl.
    rewrite drop_app_le, take_app_le by lia.
    rewrite <- !app_assoc. simpl.
    destruct arriving as [|a arriving']; simpl; [| done].
    by rewrite take_nil.
Qed.

Lemma cycle_sends_snapshot arriving (self : WebsocketNotifier Message) wire :
  cycle str arriving self wire
  = Returned (mkNotifier (activated self) (concat arriving),
              wire ++ (str <$> message_pool self)).
Proof.
  unfold cycle. rewrite flush_sends_prefix by done. unfold enqueue. simpl.
  rewrite drop_all, firstn_all. simpl.
  by rewrite <- concat_app, take_drop.
Qed.

Lemma run_conserves schedule (self : WebsocketNotifier Message) wire :
  activated self = true →
  ∃ self' wire',
    run str schedule self wire = Returned (self', wire')
    ∧ wire' ++ (str <$> message_pool self')
      = wire ++ (str <$> (message_pool self ++ concat (concat schedule)))
    ∧ (∀ c, last schedule = Some c → message_pool self' = concat c).
Proof.
  revert self wire.
  induction schedule as [|arriving later IH]; intros self wire Hact; simpl.
  - exists self, wire. by rewrite app_nil_r.
  - rewrite Hact, cycle_sends_snapshot.
    destruct (IH (mkNotifier (activated self) (concat arriving))
                 (wire ++ (str <$> message_pool self)) Hact)
      as (self' & wire' & Hrun & Hall & Hlast).
    exists self', wire'. split; [done |]. split.
    + rewrite Hall. simpl. by rewrite concat_app, <- app_assoc, <- fmap_app.
    + intros c Hc. destruct later as [|c' later'].
      * simpl in *. injection Hrun as <- <-. by injection Hc as <-.
      * by apply Hlast.
Qed.

(** C7.  One cycle of a connection, whatever its queue and whatever is
    enqueued meanwhile: with k the length of the pool when the cycle starts,
    the first k messages of the queue go out in queue order and everything
    behind them, that is what was enqueued during the cycle, stays queued in
    order.  Over any number of cycles the loop returns, what was sent
    followed by what is still queued is exactly what was enqueued, in the
    order of enqueueing, and the queue holds just the arrivals of the last
    cycle. *)
Theorem delivery_is_fifo :
  (∀ arriving (self : WebsocketNotifier Message) wire,
     cycle str arriving self wire
     = Returned
         (mkNotifier (activated self)
            (drop (length (message_pool self)) (message_pool self ++ concat arriving)),
          wire ++ (str <$> take (length (message_pool self))
                                (message_pool self ++ concat arriving))))
  ∧ (∀ schedule (self : WebsocketNotifier Message) wire,
       ∃ self' wire',
         __call__ str schedule self wire = Returned (self', wire')
         ∧ wire' ++ (str <$> message_pool self')
           = wire ++ (str <$> (message_pool self ++ concat (concat schedule)))
         ∧ (∀ c, last schedule = Some c → message_pool self' = concat c)).
Proof.
  split.
  - intros arriving self wire. rewrite cycle_sends_snapshot.
    by rewrite drop_app_length, take_app_length.
  - intros schedule self wire. unfold __call__.
    by apply (run_conserves schedule (mkNotifier true (message_pool self)) wire).
Qed.

End NotifierFacts.

(** Three messages, the second enqueued during the first flush and the third
    during a later sleep: they go out in the order of enqueueing, and an idle
    last cycle leaves nothing queued. *)
Example three_messages_in_order :
  __call__ (λ m : string, m) [ [["m2"]]; [[]; ["m3"]]; [] ]
    (mkNotifier false ["m1"]) []
  = Returned (mkNotifier true [], ["m1"; "m2"; "m3"]).
Proof. reflexivity. Qed.

(** * Further properties of the user model *)

(** ** Arrays after an update, as lists *)

Lemma relation_push db t g v f x :
  relation f (run_update db (mkUpdateOne t (Push g v))) x
  = if bool_decide (x = t ∧ f = g)
    then match get_user db t with
         | Some _ => relation f db x ++ [v]
         | None => []
         end
    else relation f db x.
Proof.
  case_bool_decide as H.
  - destruct H as [-> ->]. unfold relation. rewrite get_user_run_update. simpl.
    rewrite decide_True by done.
    destruct (get_user db t) as [d|]; [| done]. simpl.
    rewrite get_array_set_array. by rewrite decide_True.
  - unfold relation. rewrite get_user_run_update. simpl.
    case_decide as Hx; [| done]. subst x.
    destruct (get_user db t) as [d|]; [| done]. simpl.
    rewrite get_array_set_array. case_decide; [| done]. subst. tauto.
Qed.

Lemma relation_pull db t g v f x :
  relation f (run_update db (mkUpdateOne t (Pull g v))) x
  = if bool_decide (x = t ∧ f = g)
    then filter (λ y, y ≠ v) (relation f db x)
    else relation f db x.
Proof.
  case_bool_decide as H.
  - destruct H as [-> ->]. unfold relation. rewrite get_user_run_update. simpl.
    rewrite decide_True by done.
    destruct (get_user db t) as [d|]; [| done]. simpl.
    destruct (get_array g d) as [l|] eqn:El.
    + rewrite get_array_set_array. by rewrite decide_True.
    + by rewrite El.
  - unfold relation. rewrite get_user_run_update. simpl.
    case_decide as Hx; [| done]. subst x.
    destruct (get_user db t) as [d|]; [| done]. simpl.
    destruct (get_array g d) as [l|] eqn:El; [| done].
    rewrite get_array_set_array. case_decide; [| done]. subst. tauto.
Qed.

Lemma filter_ne_app_singleton (l : list N) (v : N) :
  v ∉ l → filter (λ y, y ≠ v) (l ++ [v]) = l.
Proof.
  induction l as [|a l IH]; intros Hv; simpl.
  - by rewrite filter_cons_False by tauto.
  - apply not_elem_of_cons in Hv as [Hne Hv].
    rewrite filter_cons_True by done. by rewrite IH.
Qed.

Lemma filter_ne_snoc (l : list N) (v : N) :
  filter (λ y, y ≠ v) (l ++ [v]) = filter (λ y, y ≠ v) l.
Proof. by rewrite filter_app, filter_cons_False, filter_nil, app_nil_r by tauto. Qed.

Lemma filter_ne_id (l : list N) (v : N) : v ∉ l → filter (λ y, y ≠ v) l = l.
Proof.
  intros Hv. rewrite <- (filter_ne_app_singleton l v Hv) at 2.
  by rewrite filter_ne_snoc.
Qed.

(** ** What a returned operation has checked and written *)

Lemma send_friend_request_returned self B db db' :
  send_friend_request self B db = (Returned tt, db') →
  bot self = false
  ∧ resolves db B
  ∧ (B ∉ blocked self)
  ∧ (B ∉ pendings_incoming self)
  ∧ (B ∉ pendings_outgoing self)
  ∧ (B ∉ friends self)
  ∧ db' = run_update
            (run_update db (mkUpdateOne (_id self) (Push Fpendings_outgoing B)))
            (mkUpdateOne B (Push Fpendings_incoming (_id self))).
Proof.
  unfold send_friend_request.
  destruct (bot self); [unfold raise; by intros [=] |].
  rewrite bind_run. destruct (_valid_user_id_run B db) as (bv & -> & Hvalid).
  destruct bv; simpl; [| unfold raise; by intros [=]].
  rewrite bind_run.
  change (_check_blocked B (_id self) db) with
    (Returned (bool_decide (count_documents (λ d,
        by_id B d && bool_decide (_id self ∈ default [] (doc_blocked d))) db ≠ 0%nat)), db).
  cbv beta iota.
  destruct (bool_decide (count_documents _ db ≠ 0%nat)); [unfold raise; by intros [=] |].
  case_bool_decide; [unfold raise; by intros [=] |].
  repeat case_bool_decide; simpl; try (unfold raise; by intros [=]).
  intros [= <-]. repeat split; try done. by apply Hvalid.
Qed.

Lemma response_friend_request_returned self A confirm db db' :
  response_friend_request self A confirm db = (Returned tt, db') →
  bot self = false
  ∧ A ∈ pendings_incoming self
  ∧ db' = foldl run_update db
            ([mkUpdateOne A (Pull Fpendings_outgoing (_id self));
              mkUpdateOne (_id self) (Pull Fpendings_incoming A)]
             ++ if confirm
                then [mkUpdateOne (_id self) (Push Ffriends A);
                      mkUpdateOne A (Push Ffriends (_id self))]
                else []).
Proof.
  unfold response_friend_request.
  destruct (bot self); [unfold raise; by intros [=] |].
  case_bool_decide; simpl; [| unfold raise; by intros [=]].
  destruct confirm; simpl; by intros [= <-].
Qed.

Lemma cancel_friend_request_returned self B db db' :
  cancel_friend_request self B db = (Returned tt, db') →
  bot self = false
  ∧ B ∈ pendings_outgoing self
  ∧ db' = run_update
            (run_update db (mkUpdateOne (_id self) (Pull Fpendings_outgoing B)))
            (mkUpdateOne B (Pull Fpendings_incoming (_id self))).
Proof.
  unfold cancel_friend_request.
  destruct (bot self); [unfold raise; by intros [=] |].
  case_bool_decide; simpl; [| unfold raise; by intros [=]].
  by intros [= <-].
Qed.

Lemma delete_friend_returned self B db db' :
  delete_friend self B db = (Returned tt, db') →
  bot self = false
  ∧ B ∈ friends self
  ∧ db' = run_update
            (run_update db (mkUpdateOne (_id self) (Pull Ffriends B)))
            (mkUpdateOne B (Pull Ffriends (_id self))).
Proof.
  unfold delete_friend.
  destruct (bot self); [unfold raise; by intros [=] |].
  case_bool_decide; simpl; [| unfold raise; by intros [=]].
  by intros [= <-].
Qed.

Lemma unblock_user_returned self B db db' :
  unblock_user self B db = (Returned tt, db') →
  B ∈ blocked self
  ∧ db' = run_update db (mkUpdateOne (_id self) (Pull Fblocked B)).
Proof.
  unfold unblock_user.
  case_bool_decide; simpl; [| unfold raise; by intros [=]].
  by intros [= <-].
Qed.

Lemma loaded_bot db self d :
  loaded db self → get_user db (_id self) = Some d → bot self = doc_bot d.
Proof.
  intros (d' & Hd' & Hinit) Hd. rewrite Hd in Hd'. injection Hd' as <-.
  destruct d. simpl in Hinit. by injection Hinit as <-.
Qed.

(** ** Withdrawing, unfriending, unblocking *)

(** An actor that is no bot, loaded from the collection, withdraws its
    request to B.  If B is in the actor's outgoing pendings the call returns
    and removes exactly the two edges of that request: B from the actor's
    outgoing and the actor from B's incoming pendings; every other
    membership of every relation array is as before.  Otherwise the call
    raises [UserNotInGroup] and writes nothing. *)
Theorem cancel_friend_request_spec (self : UserModel) (B : ObjectId) (db : list Doc) :
  bot self = false →
  loaded db self →
  (B ∈ relation Fpendings_outgoing db (_id self) →
     ∃ db', cancel_friend_request self B db = (Returned tt, db')
            ∧ ∀ f x y,
                y ∈ relation f db' x
                ↔ y ∈ relation f db x
                  ∧ ¬ (x = _id self ∧ f = Fpendings_outgoing ∧ y = B)
                  ∧ ¬ (x = B ∧ f = Fpendings_incoming ∧ y = _id self))
  ∧ (B ∉ relation Fpendings_outgoing db (_id self) →
     ∃ msg, cancel_friend_request self B db = (Raised (UserNotInGroup msg), db)).
Proof.
  intros Hbot Hload.
  destruct (loaded_relations _ _ Hload) as (_ & _ & _ & Hpo & _).
  unfold cancel_friend_request. rewrite Hbot, Hpo. split; intros HB.
  - rewrite bool_decide_eq_true_2 by done. simpl.
    eexists. split; [reflexivity |]. intros f x y.
    rewrite !elem_of_relation_pull. tauto.
  - rewrite bool_decide_eq_false_2 by done. simpl. eauto.
Qed.

(** Ann withdraws the request she has sent Bob. *)
Lemma cancel_friend_request_spec_witness :
  ∃ db', cancel_friend_request (actor 1 "Ann" [] [] [2%N] []) 2 requested
         = (Returned tt, db')
         ∧ ∀ f x y,
             y ∈ relation f db' x
             ↔ y ∈ relation f requested x
               ∧ ¬ (x = 1%N ∧ f = Fpendings_outgoing ∧ y = 2%N)
               ∧ ¬ (x = 2%N ∧ f = Fpendings_incoming ∧ y = 1%N).
Proof.
  refine (proj1 (cancel_friend_request_spec
                   (actor 1 "Ann" [] [] [2%N] []) 2 requested _ _) _).
  - reflexivity.
  - eexists. split; reflexivity.
  - vm_compute relation. left.
Defined.

(** An actor that is no bot, loaded from the collection, removes the friend
    B.  If B is in the actor's friends the call returns and removes B from
    the actor's friends and the actor from B's friends, and nothing else;
    otherwise it raises [UserNotInGroup] and writes nothing. *)
Theorem delete_friend_spec (self : UserModel) (B : ObjectId) (db : list Doc) :
  bot self = false →
  loaded db self →
  (B ∈ relation Ffriends db (_id self) →
     ∃ db', delete_friend self B db = (Returned tt, db')
            ∧ ∀ f x y,
                y ∈ relation f db' x
                ↔ y ∈ relation f db x
                  ∧ ¬ (x = _id self ∧ f = Ffriends ∧ y = B)
                  ∧ ¬ (x = B ∧ f = Ffriends ∧ y = _id self))
  ∧ (B ∉ relation Ffriends db (_id self) →
     ∃ msg, delete_friend self B db = (Raised (UserNotInGroup msg), db)).
Proof.
  intros Hbot Hload.
  destruct (loaded_relations _ _ Hload) as (_ & _ & Hfr & _ & _).
  unfold delete_friend. rewrite Hbot, Hfr. split; intros HB.
  - rewrite bool_decide_eq_true_2 by done. simpl.
    eexists. split; [reflexivity |]. intros f x y.
    rewrite !elem_of_relation_pull. tauto.
  - rewrite bool_decide_eq_false_2 by done. simpl. eauto.
Qed.

(** Bob is no friend of Ann's: the call is refused. *)
Lemma delete_friend_spec_witness :
  ∃ msg, delete_friend ann 2 two_users = (Raised (UserNotInGroup msg), two_users).
Proof.
  refine (proj2 (delete_friend_spec ann 2 two_users _ _) _).
  - reflexivity.
  - eexists. split; reflexivity.
  - vm_compute relation. apply not_elem_of_nil.
Defined.

(** An actor loaded from the collection, bot or not, unblocks B.  If B is in
    the actor's blocked array the call returns and removes B from it (every
    occurrence), and nothing else changes; otherwise it raises
    [UserNotInGroup] and writes nothing. *)
Theorem unblock_user_spec (self : UserModel) (B : ObjectId) (db : list Doc) :
  loaded db self →
  (B ∈ relation Fblocked db (_id self) →
     ∃ db', unblock_user self B db = (Returned tt, db')
            ∧ ∀ f x y,
                y ∈ relation f db' x
                ↔ y ∈ relation f db x
                  ∧ ¬ (x = _id self ∧ f = Fblocked ∧ y = B))
  ∧ (B ∉ relation Fblocked db (_id self) →
     ∃ msg, unblock_user self B db = (Raised (UserNotInGroup msg), db)).
Proof.
  intros Hload.
  destruct (loaded_relations _ _ Hload) as (_ & Hbl & _).
  unfold unblock_user. rewrite Hbl. split; intros HB.
  - rewrite bool_decide_eq_true_2 by done. simpl.
    eexists. split; [reflexivity |]. intros f x y.
    unfold update_one, write. simpl. by rewrite elem_of_relation_pull.
  - rewrite bool_decide_eq_false_2 by done. simpl. eauto.
Qed.

(** Bob unblocks Ann. *)
Lemma unblock_user_spec_witness :
  ∃ db', unblock_user bob_blocking 1 bob_blocked_ann = (Returned tt, db')
         ∧ ∀ f x y,
             y ∈ relation f db' x
             ↔ y ∈ relation f bob_blocked_ann x
               ∧ ¬ (x = 2%N ∧ f = Fblocked ∧ y = 1%N).
Proof.
  refine (proj1 (unblock_user_spec bob_blocking 1 bob_blocked_ann _) _).
  - eexists. split; reflexivity.
  - vm_compute relation. left.
Defined.

(** ** How the operations compose *)

Lemma apply_update_bot u d : doc_bot (apply_update u d) = doc_bot d.
Proof.
  destruct u as [f v | f v | keys | v]; simpl.
  - by destruct d, f.
  - destruct (get_array f d); [by destruct d, f | done].
  - induction keys as [|k keys IH]; [done |]. unfold exclude in *. simpl.
    rewrite <- IH. generalize (foldr unset d keys). intros d'.
    destruct d', k; try done. by destruct a.
  - by destruct d.
Qed.

Lemma get_user_bot_run_update db op x :
  doc_bot <$> get_user (run_update db op) x = doc_bot <$> get_user db x.
Proof.
  rewrite get_user_run_update. case_decide; [| done].
  destruct (get_user db x); [| done]. simpl. by rewrite apply_update_bot.
Qed.

Lemma loaded_get_user_bot db self :
  loaded db self → doc_bot <$> get_user db (_id self) = Some (bot self).
Proof.
  intros Hload. pose proof Hload as (d & Hd & _).
  rewrite Hd. simpl. f_equal. symmetry. by apply loaded_bot with db.
Qed.

(** Sending a request and withdrawing it again is a round trip.  The actor,
    loaded from the collection, sends B a request and, loaded again,
    withdraws it: the second call returns and every relation array of every
    user holds what it held before the request (the two users stored their
    pending edges matched). *)
Theorem send_then_cancel (self self1 : UserModel) (B : ObjectId) (db db1 : list Doc) :
  loaded db self →
  matched_edges db (_id self) B →
  send_friend_request self B db = (Returned tt, db1) →
  loaded db1 self1 →
  _id self1 = _id self →
  ∃ db2, cancel_friend_request self1 B db1 = (Returned tt, db2)
         ∧ ∀ f x, relation f db2 x = relation f db x.
Proof.
  intros Hload (_ & Hm & _) Hsend Hload1 Hid.
  destruct (loaded_relations _ _ Hload) as ([dA HdA] & _ & _ & Hpo & _).
  destruct (loaded_relations _ _ Hload1) as (_ & _ & _ & Hpo1 & _).
  apply send_friend_request_returned in Hsend
    as (Hbot & Hres & _ & _ & HnotB & _ & ->).
  destruct (resolves_get_user _ _ Hres) as [dB HdB].
  rewrite Hpo in HnotB.
  assert (HnotA : _id self ∉ relation Fpendings_incoming db B) by tauto.
  assert (Hbot1 : bot self1 = false).
  { apply loaded_get_user_bot in Hload, Hload1.
    rewrite Hid, !get_user_bot_run_update, Hload in Hload1. congruence. }
  unfold cancel_friend_request. rewrite Hbot1, Hpo1, Hid.
  rewrite bool_decide_eq_true_2.
  2:{ rewrite !elem_of_relation_push. left; right. eauto. }
  simpl. eexists. split; [reflexivity |]. intros f x.
  rewrite !relation_pull, !relation_push.
  rewrite get_user_run_update, HdA, HdB.
  repeat case_bool_decide; destruct_and?; simplify_eq;
    try case_decide; simpl;
    rewrite ?filter_ne_app_singleton by done; try done; try tauto.
Qed.

(** Ann asks Bob and withdraws. *)
Lemma send_then_cancel_witness :
  ∃ db2, cancel_friend_request (actor 1 "Ann" [] [] [2%N] []) 2 requested
         = (Returned tt, db2)
         ∧ ∀ f x, relation f db2 x = relation f two_users x.
Proof.
  apply (send_then_cancel ann (actor 1 "Ann" [] [] [2%N] []) 2 two_users requested).
  - eexists. split; reflexivity.
  - unfold matched_edges. vm_compute relation.
    repeat split; intros H; by apply elem_of_nil in H.
  - reflexivity.
  - eexists. split; reflexivity.
  - reflexivity.
Defined.

(** The life of a friendship.  A, loaded, asks B; B, loaded, confirms; A,
    loaded again, removes the friend.  The last call returns and every
    relation array of every user holds what it held before the request. *)
Theorem friendship_round_trip (selfA selfB selfA2 : UserModel)
    (db db1 db2 : list Doc) :
  loaded db selfA →
  matched_edges db (_id selfA) (_id selfB) →
  send_friend_request selfA (_id selfB) db = (Returned tt, db1) →
  loaded db1 selfB →
  response_friend_request selfB (_id selfA) true db1 = (Returned tt, db2) →
  loaded db2 selfA2 →
  _id selfA2 = _id selfA →
  ∃ db3, delete_friend selfA2 (_id selfB) db2 = (Returned tt, db3)
         ∧ ∀ f x, relation f db3 x = relation f db x.
Proof.
  intros Hload (Hmf & Hm & _) Hsend Hload1 Hresp Hload2 Hid.
  destruct (loaded_relations _ _ Hload) as ([dA HdA] & _ & Hfr & Hpo & _).
  destruct (loaded_relations _ _ Hload2) as (_ & _ & Hfr2 & _ & _).
  apply send_friend_request_returned in Hsend
    as (Hbot & Hres & _ & _ & HnotB & HnotF & ->).
  destruct (resolves_get_user _ _ Hres) as [dB HdB].
  rewrite Hpo in HnotB. rewrite Hfr in HnotF.
  assert (HnotA : _id selfA ∉ relation Fpendings_incoming db (_id selfB)) by tauto.
  assert (HnotFA : _id selfA ∉ relation Ffriends db (_id selfB)) by tauto.
  apply response_friend_request_returned in Hresp as (_ & _ & ->).
  assert (Hbot2 : bot selfA2 = false).
  { apply loaded_get_user_bot in Hload, Hload2. simpl in Hload2.
    rewrite Hid, !get_user_bot_run_update, Hload in Hload2. congruence. }
  unfold delete_friend. rewrite Hbot2, Hfr2, Hid.
  rewrite bool_decide_eq_true_2.
  2:{ simpl. rewrite !elem_of_relation_push, !is_Some_get_user_run_update.
      right. rewrite HdA. eauto 6. }
  simpl. eexists. split; [reflexivity |]. intros f x.
  rewrite !relation_pull, !relation_push, !relation_pull, !relation_push.
  rewrite !get_user_run_update, HdA, HdB.
  clear Hload Hload1 Hload2 Hres Hfr Hfr2 Hpo Hid.
  remember (_id selfA) as a eqn:Ea. remember (_id selfB) as b eqn:Eb.
  clear Ea Eb.
  repeat case_bool_decide; destruct_and?; simplify_eq;
    repeat case_decide; simpl;
    rewrite ?filter_ne_app_singleton by done;
    rewrite ?filter_ne_snoc; rewrite ?(filter_ne_id (relation _ db _)) by done;
    try done; try tauto.
Qed.

(** Ann asks Bob, Bob confirms, Ann unfriends him. *)
Lemma friendship_round_trip_witness :
  ∃ db3, delete_friend (actor 1 "Ann" [] [2%N] [] []) 2 befriended = (Returned tt, db3)
         ∧ ∀ f x, relation f db3 x = relation f two_users x.
Proof.
  apply (friendship_round_trip ann bob_asked (actor 1 "Ann" [] [2%N] [] [])
           two_users requested befriended).
  - eexists. split; reflexivity.
  - unfold matched_edges. vm_compute relation.
    repeat split; intros H; by apply elem_of_nil in H.
  - reflexivity.
  - eexists. split; reflexivity.
  - reflexivity.
  - eexists. split; reflexivity.
  - reflexivity.
Defined.

Lemma block_user_returned_batch self B db db' :
  block_user self B db = (Returned tt, db') →
  resolves db B
  ∧ (B ∉ blocked self)
  ∧ db' = foldl run_update db
            ([mkUpdateOne (_id self) (Push Fblocked B)]
             ++ (if bool_decide (B ∈ pendings_incoming self)
                 then [mkUpdateOne (_id self) (Pull Fpendings_outgoing B);
                       mkUpdateOne B (Pull Fpendings_incoming (_id self))]
                 else [])
             ++ (if bool_decide (B ∈ pendings_outgoing self)
                 then [mkUpdateOne B (Pull Fpendings_outgoing (_id self));
                       mkUpdateOne (_id self) (Pull Fpendings_incoming B)]
                 else [])
             ++ (if bool_decide (B ∈ friends self)
                 then [mkUpdateOne (_id self) (Pull Ffriends B);
                       mkUpdateOne B (Pull Ffriends (_id self))]
                 else [])).
Proof.
  unfold block_user.
  rewrite bind_run. destruct (_valid_user_id_run B db) as (bv & -> & Hvalid).
  destruct bv; simpl; [| unfold raise; by intros [=]].
  case_bool_decide; simpl; [unfold raise; by intros [=] |].
  destruct (bool_decide (B ∈ pendings_incoming self));
    destruct (bool_decide (B ∈ pendings_outgoing self));
    destruct (bool_decide (B ∈ friends self)); simpl;
    intros [= <-]; (split; [by apply Hvalid | done]).
Qed.

Lemma is_Some_get_user_foldl operations db x :
  is_Some (get_user (foldl run_update db operations) x) ↔ is_Some (get_user db x).
Proof.
  revert db. induction operations as [|op operations IH]; intros db; [done |].
  simpl. by rewrite IH, is_Some_get_user_run_update.
Qed.

Lemma _check_blocked_found c a db :
  a ∈ relation Fblocked db c → _check_blocked c a db = (Returned true, db).
Proof.
  intros Hin. unfold _check_blocked. rewrite bind_run. unfold query.
  cbv beta iota. unfold mret, Aio_ret. f_equal. f_equal.
  apply bool_decide_eq_true, count_documents_pos.
  unfold relation in Hin.
  destruct (get_user db c) as [d|] eqn:Ed; [| by apply elem_of_nil in Hin].
  apply get_user_Some in Ed as [Hd Hid]. exists d. split; [done |].
  rewrite andb_true_iff, by_id_true, bool_decide_eq_true. done.
Qed.

(** After a block no request passes between the two.  The actor, loaded,
    has blocked B.  From then on a request of B (no bot, loaded) to the actor
    raises [InvalidUser], and so does a request of the actor (no bot, loaded
    again) to B; neither writes. *)
Theorem blocked_refuses_requests (self : UserModel) (B : ObjectId) (db db' : list Doc) :
  loaded db self →
  block_user self B db = (Returned tt, db') →
  (∀ selfB, loaded db' selfB → _id selfB = B → bot selfB = false →
     ∃ msg, send_friend_request selfB (_id self) db' = (Raised (InvalidUser msg), db'))
  ∧ (∀ self', loaded db' self' → _id self' = _id self → bot self' = false →
     ∃ msg, send_friend_request self' B db' = (Raised (InvalidUser msg), db')).
Proof.
  intros Hload Hblock.
  destruct (loaded_relations _ _ Hload) as (Hself & _).
  pose proof Hblock as (_ & _ & Hdb')%block_user_returned_batch.
  assert (Hin : B ∈ relation Fblocked db' (_id self)).
  { apply (block_user_returned _ _ _ _ Hblock).
    rewrite Hdb'. by apply is_Some_get_user_foldl. }
  clear Hdb'. split.
  - intros selfB HloadB HidB HbotB. unfold send_friend_request.
    rewrite HbotB, bind_run.
    destruct (_valid_user_id_run (_id self) db') as (bv & -> & _).
    destruct bv; simpl; [| eauto].
    rewrite bind_run, HidB, (_check_blocked_found _ _ _ Hin). eauto.
  - intros self' Hload' Hid' Hbot'. unfold send_friend_request.
    destruct (loaded_relations _ _ Hload') as (_ & Hbl & _).
    rewrite Hbot', bind_run.
    destruct (_valid_user_id_run B db') as (bv & -> & _).
    destruct bv; simpl; [| eauto].
    rewrite bind_run.
    change (_check_blocked B (_id self') db') with
      (Returned (bool_decide (count_documents (λ d,
          by_id B d && bool_decide (_id self' ∈ default [] (doc_blocked d))) db' ≠ 0%nat)),
       db').
    cbv beta iota. destruct (bool_decide (count_documents _ db' ≠ 0%nat)); [eauto |].
    rewrite Hbl, Hid', (bool_decide_eq_true_2 _ Hin). eauto.
Qed.

(** Bob has blocked Ann; Ann asks him. *)
Lemma blocked_refuses_requests_witness :
  ∃ msg, send_friend_request ann 2 bob_blocked_ann
         = (Raised (InvalidUser msg), bob_blocked_ann).
Proof.
  refine (proj1 (blocked_refuses_requests bob 1 two_users bob_blocked_ann _ _)
            ann _ _ _).
  - eexists. split; reflexivity.
  - reflexivity.
  - eexists. split; reflexivity.
  - reflexivity.
  - reflexivity.
Defined.

(** ** What the relationship operations never touch *)

Lemma without_arrays_apply_update u d :
  array_update u → without_arrays (apply_update u d) = without_arrays d.
Proof.
  destruct u as [f v | f v | keys | v]; simpl; try done; intros _.
  - by destruct d, f.
  - destruct (get_array f d); [by destruct d, f | done].
Qed.

Lemma without_arrays_run_update db op :
  array_update (uo_update op) →
  without_arrays <$> run_update db op = without_arrays <$> db.
Proof.
  intros Hop. unfold run_update. induction db as [|d db IH]; [done |].
  cbn [update_first]. destruct (by_id (uo_id op) d); rewrite !fmap_cons.
  - by rewrite without_arrays_apply_update.
  - by rewrite IH.
Qed.

Lemma batch_between_untouched a b operations db :
  batch_between a b operations →
  without_arrays <$> foldl run_update db operations = without_arrays <$> db
  ∧ ∀ z, z ≠ a → z ≠ b →
      get_user (foldl run_update db operations) z = get_user db z.
Proof.
  unfold batch_between. intros Hops. revert db.
  induction Hops as [|op operations [Harr Hid] _ IH]; intros db; [done |].
  simpl. destruct (IH (run_update db op)) as [IH1 IH2]. split.
  - by rewrite IH1, without_arrays_run_update.
  - intros z Ha Hb. rewrite IH2, get_user_run_update by done.
    case_decide; [| done]. subst z. by destruct Hid.
Qed.

(** What each operation writes when it returns is a batch between the actor
    and the counterpart. *)
Lemma relationship_batches self x confirm :
  ∀ m, m ∈ [send_friend_request self x; response_friend_request self x confirm;
            cancel_friend_request self x; delete_friend self x;
            block_user self x; unblock_user self x] →
  ∀ db db', m db = (Returned tt, db') →
    ∃ operations, batch_between (_id self) x operations
                  ∧ db' = foldl run_update db operations.
Proof.
  intros m Hm db db' Hrun. unfold batch_between.
  repeat (apply elem_of_cons in Hm as [-> | Hm]).
  - apply send_friend_request_returned in Hrun as (_ & _ & _ & _ & _ & _ & ->).
    eexists [_; _]. split; [| reflexivity].
    repeat (apply Forall_cons; split; [simpl; tauto |]). by apply Forall_nil.
  - apply response_friend_request_returned in Hrun as (_ & _ & ->).
    eexists. split; [| reflexivity].
    destruct confirm; simpl;
      repeat (apply Forall_cons; split; [simpl; tauto |]); by apply Forall_nil.
  - apply cancel_friend_request_returned in Hrun as (_ & _ & ->).
    eexists [_; _]. split; [| reflexivity].
    repeat (apply Forall_cons; split; [simpl; tauto |]). by apply Forall_nil.
  - apply delete_friend_returned in Hrun as (_ & _ & ->).
    eexists [_; _]. split; [| reflexivity].
    repeat (apply Forall_cons; split; [simpl; tauto |]). by apply Forall_nil.
  - apply block_user_returned_batch in Hrun as (_ & _ & ->).
    eexists. split; [| reflexivity].
    repeat case_bool_decide; simpl;
      repeat (apply Forall_cons; split; [simpl; tauto |]); by apply Forall_nil.
  - apply unblock_user_returned in Hrun as (_ & ->).
    eexists [_]. split; [| reflexivity].
    repeat (apply Forall_cons; split; [simpl; tauto |]). by apply Forall_nil.
  - by apply elem_of_nil in Hm.
Qed.

(** None of the six relationship operations, whether it returns or raises,
    adds or removes a document or changes anything but relation arrays: the
    documents without their arrays are the same, in the same order; and the
    documents of users other than the actor and the counterpart are exactly
    what they were. *)
Theorem relationship_operations_touch_arrays_only
    (self : UserModel) (x : ObjectId) (confirm : bool) :
  ∀ m, m ∈ [send_friend_request self x; response_friend_request self x confirm;
            cancel_friend_request self x; delete_friend self x;
            block_user self x; unblock_user self x] →
  ∀ db r db', m db = (r, db') →
    without_arrays <$> db' = without_arrays <$> db
    ∧ ∀ z, z ≠ _id self → z ≠ x → get_user db' z = get_user db z.
Proof.
  intros m Hm db r db' Hrun. destruct r as [e | []].
  - assert (db' = db) as ->; [| done].
    revert Hrun. repeat (apply elem_of_cons in Hm as [-> | Hm]).
    + apply send_friend_request_no_write.
    + apply response_friend_request_no_write.
    + apply cancel_friend_request_no_write.
    + apply delete_friend_no_write.
    + apply block_user_no_write.
    + apply unblock_user_no_write.
    + by apply elem_of_nil in Hm.
  - destruct (relationship_batches self x confirm m Hm db db' Hrun)
      as (operations & Hbatch & ->).
    by apply batch_between_untouched.
Qed.

(** Bob blocks Ann. *)
Lemma relationship_operations_touch_arrays_only_witness :
  without_arrays <$> bob_blocked_ann = without_arrays <$> two_users
  ∧ ∀ z, z ≠ 2%N → z ≠ 1%N → get_user bob_blocked_ann z = get_user two_users z.
Proof.
  apply (relationship_operations_touch_arrays_only bob 1 true
           (block_user bob 1) (ltac:(do 4 right; left)) two_users (Returned tt)).
  reflexivity.
Defined.

(** ** Matched edges are kept matched *)

Lemma symmetric_pull_pending db t v :
  symmetric db →
  symmetric (run_update
               (run_update db (mkUpdateOne t (Pull Fpendings_outgoing v)))
               (mkUpdateOne v (Pull Fpendings_incoming t))).
Proof.
  intros Hsym a b. destruct (Hsym a b) as [Hf Hp].
  rewrite !elem_of_relation_pull. split; intuition congruence.
Qed.

Lemma symmetric_pull_friends db t v :
  symmetric db →
  symmetric (run_update
               (run_update db (mkUpdateOne t (Pull Ffriends v)))
               (mkUpdateOne v (Pull Ffriends t))).
Proof.
  intros Hsym a b. destruct (Hsym a b) as [Hf Hp].
  rewrite !elem_of_relation_pull. split; intuition congruence.
Qed.

Lemma symmetric_push_pending db t v :
  is_Some (get_user db t) → is_Some (get_user db v) →
  symmetric db →
  symmetric (run_update
               (run_update db (mkUpdateOne t (Push Fpendings_outgoing v)))
               (mkUpdateOne v (Push Fpendings_incoming t))).
Proof.
  intros Ht Hv Hsym a b. destruct (Hsym a b) as [Hf Hp].
  rewrite !elem_of_relation_push, !is_Some_get_user_run_update.
  split; intuition congruence.
Qed.

Lemma symmetric_push_friends db t v :
  is_Some (get_user db t) → is_Some (get_user db v) →
  symmetric db →
  symmetric (run_update
               (run_update db (mkUpdateOne t (Push Ffriends v)))
               (mkUpdateOne v (Push Ffriends t))).
Proof.
  intros Ht Hv Hsym a b. destruct (Hsym a b) as [Hf Hp].
  rewrite !elem_of_relation_push, !is_Some_get_user_run_update.
  split; intuition congruence.
Qed.

Lemma symmetric_blocked db t u :
  (∃ v, u = Push Fblocked v ∨ u = Pull Fblocked v) →
  symmetric db → symmetric (run_update db (mkUpdateOne t u)).
Proof.
  intros (v & [-> | ->]) Hsym a b; destruct (Hsym a b) as [Hf Hp].
  - rewrite !relation_push_other by done. done.
  - rewrite !relation_pull_other by done. done.
Qed.

(** The six relationship operations keep the stored edges matched.  If in
    the collection every friends edge has its mirror and every outgoing
    pending its incoming counterpart, and the actor is loaded from it, then
    the same holds after any of the operations has returned. *)
Theorem relationship_operations_keep_symmetry
    (self : UserModel) (x : ObjectId) (confirm : bool) :
  ∀ m, m ∈ [send_friend_request self x; response_friend_request self x confirm;
            cancel_friend_request self x; delete_friend self x;
            block_user self x; unblock_user self x] →
  ∀ db db', symmetric db → loaded db self → m db = (Returned tt, db') →
    symmetric db'.
Proof.
  intros m Hm db db' Hsym Hload Hrun.
  destruct (loaded_relations _ _ Hload) as (Hself & Hbl & Hfr & Hpo & Hpi).
  repeat (apply elem_of_cons in Hm as [-> | Hm]).
  - apply send_friend_request_returned in Hrun as (_ & Hres & _ & _ & _ & _ & ->).
    apply symmetric_push_pending; [done | by apply resolves_get_user | done].
  - apply response_friend_request_returned in Hrun as (_ & Hin & ->).
    rewrite Hpi in Hin. apply Hsym in Hin.
    pose proof (is_Some_relation _ _ _ _ Hin) as Hx.
    destruct confirm; simpl.
    + apply symmetric_push_friends;
        rewrite ?is_Some_get_user_run_update; try done.
      by apply symmetric_pull_pending.
    + by apply symmetric_pull_pending.
  - apply cancel_friend_request_returned in Hrun as (_ & _ & ->).
    by apply symmetric_pull_pending.
  - apply delete_friend_returned in Hrun as (_ & _ & ->).
    by apply symmetric_pull_friends.
  - apply block_user_returned_batch in Hrun as (_ & _ & ->).
    repeat case_bool_decide; simpl;
      repeat first
        [ apply symmetric_pull_friends
        | apply symmetric_pull_pending
        | apply symmetric_blocked; [eauto |] ];
      done.
  - apply unblock_user_returned in Hrun as (_ & ->).
    apply symmetric_blocked; [eauto | done].
  - by apply elem_of_nil in Hm.
Qed.

Lemma symmetric_without_edges db :
  (∀ d, d ∈ db → doc_friends d = Some [] ∧ doc_pendings_outgoing d = Some []
                 ∧ doc_pendings_incoming d = Some []) →
  symmetric db.
Proof.
  intros Hempty.
  assert (Hnone : ∀ f a b, f ≠ Fblocked → b ∉ relation f db a).
  { intros f a b Hf. unfold relation.
    destruct (get_user db a) as [d|] eqn:Ed; [| apply not_elem_of_nil].
    apply get_user_Some in Ed as [Hd _].
    destruct (Hempty d Hd) as (H1 & H2 & H3).
    destruct f; simpl; rewrite ?H1, ?H2, ?H3; try done; apply not_elem_of_nil. }
  intros a b. split; split; intros H; by apply Hnone in H.
Qed.

Lemma symmetric_requested : symmetric requested.
Proof.
  change requested with
    (run_update
       (run_update two_users (mkUpdateOne 1 (Push Fpendings_outgoing 2)))
       (mkUpdateOne 2 (Push Fpendings_incoming 1))).
  apply symmetric_push_pending; [by eexists | by eexists |].
  apply symmetric_without_edges. intros d Hd.
  repeat (apply elem_of_cons in Hd as [-> | Hd]); [done | done |].
  by apply elem_of_nil in Hd.
Qed.

(** Bob confirms the request of Ann. *)
Lemma relationship_operations_keep_symmetry_witness : symmetric befriended.
Proof.
  apply (relationship_operations_keep_symmetry bob_asked 1 true
           (response_friend_request bob_asked 1 true)
           (ltac:(right; left)) requested befriended).
  - apply symmetric_requested.
  - eexists. split; reflexivity.
  - reflexivity.
Defined.

(** ** Registration and authorization *)

Lemma find_one_app flt l1 l2 :
  find_one flt (l1 ++ l2)
  = match find_one flt l1 with
    | Some d => Some d
    | None => find_one flt l2
    end.
Proof.
  induction l1 as [|d l1 IH]; [done |].
  simpl. rewrite !find_one_cons. by destruct (flt d).
Qed.

Lemma find_one_None flt l :
  find_one flt l = None ↔ ∀ d, d ∈ l → flt d = false.
Proof.
  induction l as [|d l IH].
  - split; [intros _ d Hd; by apply elem_of_nil in Hd | done].
  - rewrite find_one_cons. destruct (flt d) eqn:E.
    + split; [done |]. intros H. specialize (H d (list_elem_of_here _ _)). congruence.
    + rewrite IH. split.
      * intros H d' Hd'. apply elem_of_cons in Hd' as [-> | Hd']; [done | by apply H].
      * intros H d' Hd'. apply H. by right.
Qed.

Lemma find_one_Some_elem flt l d : find_one flt l = Some d → d ∈ l ∧ flt d = true.
Proof.
  induction l as [|d' l IH]; [done |].
  rewrite find_one_cons. destruct (flt d') eqn:E.
  - intros [= ->]. split; [left | done].
  - intros H. destruct (IH H). split; [by right | done].
Qed.

Lemma UserModel_init_authorized d :
  ∃ u, UserModel_init (exclude [Flogin; Fpassword; Fsalt] d) = Returned u
       ∧ _id u = doc_id d
       ∧ bot u = doc_bot d
       ∧ deleted u = default false (doc_deleted d)
       ∧ token u = doc_token d
       ∧ (∀ f, match f with
               | Fblocked => blocked u
               | Ffriends => friends u
               | Fpendings_outgoing => pendings_outgoing u
               | Fpendings_incoming => pendings_incoming u
               end = default [] (get_array f d)).
Proof. destruct d. eexists. split; [reflexivity |]. repeat split. by intros []. Qed.

Section AccountFacts.

Variable sha256_hexdigest : string → string.
Variable pbkdf2_hmac_hex : string → string → N → string.

Lemma registrate_run nick login password salt new_token now new_id db :
  registrate sha256_hexdigest pbkdf2_hmac_hex nick login password
    salt new_token now new_id db
  = let new_user :=
      mkDoc new_id nick now false None (Some new_token) (Some online) None None
            None (Some []) (Some []) (Some []) (Some [])
            (Some (sha256_hexdigest login))
            (Some (pbkdf2_hmac_hex password salt 100000)) (Some salt) in
    match find_one (λ d, bool_decide (doc_login d = Some (sha256_hexdigest login))) db with
    | Some _ => (Raised (ValueError "Disallowed registration"), db)
    | None =>
      match find_one (by_id new_id) db with
      | Some _ => (Raised (DuplicateKeyError "duplicate key error on _id"), db)
      | None => (UserModel_init (exclude [Fpassword; Flogin; Fsalt] new_user),
                 db ++ [new_user])
      end
    end.
Proof.
  cbv beta iota zeta
    delta [registrate mbind Aio_bind query raise lift_outcome insert_one doc_id].
  destruct (find_one _ db); [done |]. simpl.
  by destruct (find_one (by_id new_id) db).
Qed.

(** Registration and login are a round trip: once [registrate] has returned
    a user, [authorize] with the same login and password (both non-empty, no
    token) returns that very user and writes nothing. *)
Theorem registrate_then_authorize nick login password salt new_token now new_id
    (db db' : list Doc) (u : UserModel) :
  login ≠ EmptyString →
  password ≠ EmptyString →
  registrate sha256_hexdigest pbkdf2_hmac_hex nick login password
    salt new_token now new_id db = (Returned u, db') →
  authorize sha256_hexdigest pbkdf2_hmac_hex login password "" db' = (Returned u, db').
Proof.
  intros Hl Hp. rewrite registrate_run. cbv zeta.
  destruct (find_one _ db) eqn:Elogin; [done |].
  destruct (find_one (by_id new_id) db) eqn:Eid; [done |].
  intros [= <- <-].
  rewrite authorize_password_path by done.
  rewrite find_one_app, Elogin, find_one_cons. cbn [doc_login].
  rewrite bool_decide_eq_true_2 by done. cbn [doc_salt].
  rewrite find_one_app.
  assert (find_one (λ d, bool_decide (doc_login d = Some (sha256_hexdigest login))
                         && bool_decide (doc_password d
                              = Some (pbkdf2_hmac_hex password salt 100000))) db
          = None) as ->.
  { apply find_one_None. intros d Hd.
    rewrite find_one_None in Elogin. by rewrite (Elogin d Hd). }
  rewrite find_one_cons. cbn [doc_login doc_password].
  by rewrite !bool_decide_eq_true_2.
Qed.

(** A login is registered once: after [registrate] has returned, every
    further registration of the same login, whatever nick, password, salt,
    token and id come with it, raises [ValueError] and inserts nothing. *)
Theorem registrate_login_once nick login password salt new_token now new_id
    (db db' : list Doc) (u : UserModel) :
  registrate sha256_hexdigest pbkdf2_hmac_hex nick login password
    salt new_token now new_id db = (Returned u, db') →
  ∀ nick2 password2 salt2 token2 now2 id2,
    registrate sha256_hexdigest pbkdf2_hmac_hex nick2 login password2
      salt2 token2 now2 id2 db'
    = (Raised (ValueError "Disallowed registration"), db').
Proof.
  rewrite registrate_run. cbv zeta.
  destruct (find_one _ db) eqn:Elogin; [done |].
  destruct (find_one (by_id new_id) db) eqn:Eid; [done |].
  intros [= <- <-] nick2 password2 salt2 token2 now2 id2.
  rewrite registrate_run. cbv zeta.
  rewrite find_one_app, Elogin, find_one_cons. cbn [doc_login].
  by rewrite bool_decide_eq_true_2.
Qed.

End AccountFacts.

(** Ann registers with the stand-in hashes and logs in. *)
Lemma registrate_then_authorize_witness :
  authorize toy_sha256 toy_pbkdf2 "ann" "secret" "" ann_registered
  = (Returned {| _id := 1; nick := "Ann"; created_at := 0; bot := false;
                 deleted := false; token := Some "token-of-ann"%string;
                 status := online; text_status := ""; code := None;
                 parent := None; blocked := []; friends := [];
                 pendings_outgoing := []; pendings_incoming := [] |},
     ann_registered).
Proof.
  apply (registrate_then_authorize toy_sha256 toy_pbkdf2
           "Ann" "ann" "secret" "pepper" "token-of-ann" 0 1 []).
  - discriminate.
  - discriminate.
  - reflexivity.
Defined.

(** Somebody else tries the login of Ann. *)
Lemma registrate_login_once_witness :
  registrate toy_sha256 toy_pbkdf2 "Eve" "ann" "other" "salt" "token" 5 2
    ann_registered
  = (Raised (ValueError "Disallowed registration"), ann_registered).
Proof.
  refine (registrate_login_once toy_sha256 toy_pbkdf2
            "Ann" "ann" "secret" "pepper" "token-of-ann" 0 1 [] ann_registered _ _
            "Eve" "other" "salt" "token" 5 2).
  reflexivity.
Defined.

Section AuthorizeFacts.

Variable sha256_hexdigest : string → string.
Variable pbkdf2_hmac_hex : string → string → N → string.

Lemma authorize_token_path login password token db :
  token ≠ EmptyString →
  authorize sha256_hexdigest pbkdf2_hmac_hex login password token db
  = match find_one (λ d, bool_decide (doc_token d = Some token)) db with
    | None => (Raised (InvalidUser "No such user"), db)
    | Some user => (UserModel_init (exclude [Flogin; Fpassword; Fsalt] user), db)
    end.
Proof.
  intros Ht.
  cbv beta iota zeta
    delta [authorize mbind Aio_bind mret Aio_ret query raise lift_outcome].
  rewrite (non_empty_true _ Ht). cbv beta iota.
  by destruct (find_one _ db).
Qed.

Lemma authorize_nothing_given login password db :
  login = EmptyString ∨ password = EmptyString →
  authorize sha256_hexdigest pbkdf2_hmac_hex login password "" db
  = (Raised (ValueError "Not enough auth info"), db).
Proof.
  intros H.
  cbv beta iota zeta
    delta [authorize mbind Aio_bind mret Aio_ret query raise lift_outcome].
  change (non_empty "") with false. cbv beta iota.
  assert (non_empty login && non_empty password = false) as ->; [| done].
  destruct H as [-> | ->]; [done |]. apply andb_false_r.
Qed.

(** The three ways through [authorize].  It never writes.  With a token the
    login and the password are not looked at, and the call either returns
    the user of the first document holding that token or raises
    [InvalidUser]; no other exception leaves the token path.  Without a
    token and without both a login and a password it raises [ValueError]. *)
Theorem authorize_paths (login password tok : string) (db : list Doc) :
  (∀ r db', authorize sha256_hexdigest pbkdf2_hmac_hex login password tok db
            = (r, db') → db' = db)
  ∧ (tok ≠ EmptyString →
       (∀ login' password',
          authorize sha256_hexdigest pbkdf2_hmac_hex login' password' tok db
          = authorize sha256_hexdigest pbkdf2_hmac_hex login password tok db)
       ∧ ((∃ u d, find_one (λ d, bool_decide (doc_token d = Some tok)) db = Some d
                  ∧ _id u = doc_id d ∧ token u = Some tok
                  ∧ authorize sha256_hexdigest pbkdf2_hmac_hex login password tok db
                    = (Returned u, db))
          ∨ ((∀ d, d ∈ db → doc_token d ≠ Some tok)
             ∧ authorize sha256_hexdigest pbkdf2_hmac_hex login password tok db
               = (Raised (InvalidUser "No such user"), db))))
  ∧ (tok = EmptyString → login = EmptyString ∨ password = EmptyString →
       authorize sha256_hexdigest pbkdf2_hmac_hex login password tok db
       = (Raised (ValueError "Not enough auth info"), db)).
Proof.
  split; [| split].
  - intros r db'.
    destruct (decide (tok = EmptyString)) as [-> | Ht].
    + destruct (decide (login = EmptyString)) as [-> | Hl];
        [rewrite authorize_nothing_given by tauto; by intros [=] |].
      destruct (decide (password = EmptyString)) as [-> | Hp];
        [rewrite authorize_nothing_given by tauto; by intros [=] |].
      rewrite authorize_password_path by done.
      destruct (find_one _ db) as [found|]; [| by intros [=]].
      destruct (doc_salt found) as [salt|]; [| by intros [=]].
      destruct (find_one _ db); by intros [=].
    + rewrite authorize_token_path by done.
      destruct (find_one _ db); by intros [=].
  - intros Ht. split.
    + intros login' password'. by rewrite !authorize_token_path.
    + rewrite authorize_token_path by done.
      destruct (find_one _ db) as [d|] eqn:E.
      * left. destruct (UserModel_init_authorized d) as (u & Hu & Hid & _ & _ & Htok & _).
        exists u, d. rewrite Hu. repeat split; try done.
        rewrite Htok. apply find_one_Some_elem in E as [_ E].
        by apply bool_decide_eq_true in E.
      * right. split; [| done]. intros d Hd Htok.
        rewrite find_one_None in E. specialize (E d Hd).
        by rewrite bool_decide_eq_true_2 in E.
  - intros -> H. by apply authorize_nothing_given.
Qed.

End AuthorizeFacts.

(** The token of Ann is presented together with a login nobody has. *)
Lemma authorize_paths_witness :
  ∃ u d, find_one (λ d, bool_decide (doc_token d = Some "token-of-ann"%string))
           ann_registered = Some d
         ∧ _id u = doc_id d ∧ token u = Some "token-of-ann"%string
         ∧ authorize toy_sha256 toy_pbkdf2 "bob" "guess" "token-of-ann" ann_registered
           = (Returned u, ann_registered).
Proof.
  destruct (proj2 (proj1 (proj2
    (authorize_paths toy_sha256 toy_pbkdf2 "bob" "guess" "token-of-ann"
       ann_registered)) ltac:(discriminate))) as [H | [H _]].
  - exact H.
  - exfalso. apply (H _ (list_elem_of_here _ _)). reflexivity.
Defined.

(** ** Setters *)

Lemma apply_set_id s d : doc_id (apply_set s d) = doc_id d.
Proof. by destruct d, s. Qed.

Lemma get_user_update_one_set db x s z :
  get_user (update_first (by_id x) (apply_set s) db) z
  = if decide (z = x) then apply_set s <$> get_user db z else get_user db z.
Proof. apply get_user_update_first, apply_set_id. Qed.

Lemma in_range_spec n lo hi : in_range n lo hi = true ↔ (lo ≤ n < hi)%nat.
Proof.
  unfold in_range. rewrite andb_true_iff, Nat.leb_le, Nat.ltb_lt. done.
Qed.

(** [set_nick] accepts nicknames of 1 to 25 characters and nothing else.  In
    range, the call returns, [self] carries the new nick, the actor's
    document carries it and is otherwise what it was, and no other user's
    document changes.  Out of range, the empty nick included, it raises
    [ValueError] and writes nothing. *)
Theorem set_nick_spec (self : UserModel) (new_nick : string) (db : list Doc) :
  ((1 ≤ String.length new_nick ≤ 25)%nat →
     ∃ db', set_nick self new_nick db = (Returned (with_nick new_nick self), db')
            ∧ get_user db' (_id self)
              = apply_set (SetNick new_nick) <$> get_user db (_id self)
            ∧ (∀ d, get_user db' (_id self) = Some d → doc_nick d = new_nick)
            ∧ (∀ z, z ≠ _id self → get_user db' z = get_user db z))
  ∧ (¬ (1 ≤ String.length new_nick ≤ 25)%nat →
     set_nick self new_nick db = (Raised (ValueError "Invalid nickname"), db)).
Proof.
  unfold set_nick. split; intros Hlen.
  - assert (in_range (String.length new_nick) 1 (25 + 1) = true) as ->
      by (apply in_range_spec; lia).
    simpl. eexists. split; [reflexivity |].
    rewrite get_user_update_one_set, decide_True by done.
    split; [done |]. split.
    + destruct (get_user db (_id self)) as [d0|]; [| done].
      intros d [= <-]. by destruct d0.
    + intros z Hz. by rewrite get_user_update_one_set, decide_False.
  - assert (in_range (String.length new_nick) 1 (25 + 1) = false) as ->; [| done].
    apply not_true_is_false. rewrite in_range_spec. lia.
Qed.

(** Ann tries the empty nick. *)
Lemma set_nick_spec_witness :
  set_nick ann "" two_users = (Raised (ValueError "Invalid nickname"), two_users).
Proof.
  apply (proj2 (set_nick_spec ann "" two_users)). simpl. lia.
Defined.

(** [set_text_status] accepts a text of at most 256 characters, the empty one
    included: the call returns, [self] and the actor's document carry the
    text, nothing else changes.  A longer text raises [ValueError] and
    writes nothing. *)
Theorem set_text_status_spec (self : UserModel) (text : string) (db : list Doc) :
  ((String.length text ≤ 256)%nat →
     ∃ db', set_text_status self text db
            = (Returned (with_text_status text self), db')
            ∧ get_user db' (_id self)
              = apply_set (SetTextStatus text) <$> get_user db (_id self)
            ∧ (∀ d, get_user db' (_id self) = Some d → doc_text_status d = Some text)
            ∧ (∀ z, z ≠ _id self → get_user db' z = get_user db z))
  ∧ ((256 < String.length text)%nat →
     set_text_status self text db = (Raised (ValueError "Too long status"), db)).
Proof.
  unfold set_text_status. split; intros Hlen.
  - assert ((256 <? String.length text)%nat = false) as -> by by apply Nat.ltb_ge.
    simpl. eexists. split; [reflexivity |].
    rewrite get_user_update_one_set, decide_True by done.
    split; [done |]. split.
    + destruct (get_user db (_id self)) as [d0|]; [| done].
      intros d [= <-]. by destruct d0.
    + intros z Hz. by rewrite get_user_update_one_set, decide_False.
  - by assert ((256 <? String.length text)%nat = true) as -> by by apply Nat.ltb_lt.
Qed.

(** Ann clears her text status. *)
Lemma set_text_status_spec_witness :
  ∃ db', set_text_status ann "" two_users = (Returned (with_text_status "" ann), db')
         ∧ get_user db' 1 = apply_set (SetTextStatus "") <$> get_user two_users 1
         ∧ (∀ d, get_user db' 1 = Some d → doc_text_status d = Some ""%string)
         ∧ (∀ z, z ≠ 1%N → get_user db' z = get_user two_users z).
Proof.
  apply (proj1 (set_text_status_spec ann "" two_users)). simpl. lia.
Defined.

(** ** One document rewritten in place *)

Lemma update_first_found flt u db d :
  find_one flt db = Some d →
  ∃ l1 l2, db = l1 ++ d :: l2
           ∧ (∀ d', d' ∈ l1 → flt d' = false)
           ∧ update_first flt u db = l1 ++ u d :: l2.
Proof.
  induction db as [|d0 db IH]; [done |].
  rewrite find_one_cons. simpl. destruct (flt d0) eqn:E.
  - intros [= ->]. exists [], db. repeat split.
    intros d' Hd'. by apply elem_of_nil in Hd'.
  - intros H. destruct (IH H) as (l1 & l2 & -> & Hl1 & ->).
    exists (d0 :: l1), l2. repeat split.
    intros d' Hd'. apply elem_of_cons in Hd' as [-> | Hd']; [done | by apply Hl1].
Qed.

Lemma update_first_missing flt u db :
  find_one flt db = None → update_first flt u db = db.
Proof.
  induction db as [|d0 db IH]; [done |].
  rewrite find_one_cons. simpl. destruct (flt d0); [done |].
  intros H. by rewrite IH.
Qed.

Lemma count_documents_app flt l1 l2 :
  count_documents flt (l1 ++ l2)
  = (count_documents flt l1 + count_documents flt l2)%nat.
Proof. unfold count_documents. by rewrite filter_app, length_app. Qed.

Lemma count_documents_update_first flt g u db :
  (count_documents flt (update_first g u db)
   ≤ match find_one g db with
     | Some d => count_documents flt db
                 + (if flt (u d) then 1 else 0) - (if flt d then 1 else 0)
     | None => count_documents flt db
     end)%nat.
Proof.
  destruct (find_one g db) as [d|] eqn:E.
  - destruct (update_first_found g u db d E) as (l1 & l2 & -> & _ & ->).
    rewrite !count_documents_app, !count_documents_cons.
    destruct (flt (u d)), (flt d); lia.
  - by rewrite update_first_missing.
Qed.

(** ** Friend codes *)

Lemma _avaliable_friend_code_run c db :
  _avaliable_friend_code c db
  = (Returned (bool_decide
       (count_documents (λ d, bool_decide (doc_code d = Some c)) db = 0%nat)), db).
Proof.
  unfold _avaliable_friend_code. rewrite bind_run. unfold query.
  cbv beta iota. unfold mret, Aio_ret. do 2 f_equal.
  by repeat case_bool_decide.
Qed.

Lemma set_friend_code_run self c db :
  set_friend_code self c db
  = if bot self then (Raised UnavailableForBots, db)
    else if negb (in_range (String.length c) 3 51)
    then (Raised (ValueError "Too long friend code"), db)
    else if bool_decide
              (count_documents (λ d, bool_decide (doc_code d = Some c)) db = 0%nat)
    then (Returned (with_code c self),
          update_first (by_id (_id self)) (apply_set (SetCode c)) db)
    else (Raised (ValueError "Code is already used"), db).
Proof.
  unfold set_friend_code. destruct (bot self); [done |].
  destruct (negb _); [done |].
  rewrite bind_run, _avaliable_friend_code_run.
  by case_bool_decide.
Qed.

(** Friend codes stay unique.  [set_friend_code] refuses a bot, a code
    shorter than 3 or longer than 50 characters and a code some document
    already holds (the actor's own included), each time without writing.
    Whatever it does, if no code was held by two documents before the call
    none is afterwards; and once the actor, who has a document, holds the
    code, nobody's [set_friend_code] with that code returns. *)
Theorem set_friend_code_keeps_codes_unique (self : UserModel) (c : string)
    (db db' : list Doc) (r : outcome UserModel) :
  unique_codes db →
  set_friend_code self c db = (r, db') →
  unique_codes db'
  ∧ (∀ e, r = Raised e → db' = db)
  ∧ (bot self = true → r = Raised UnavailableForBots)
  ∧ (∀ u, r = Returned u →
       (3 ≤ String.length c ≤ 50)%nat
       ∧ code u = Some c
       ∧ (is_Some (get_user db (_id self)) →
          ∀ self2, ∃ e, set_friend_code self2 c db' = (Raised e, db'))).
Proof.
  intros Huniq. rewrite set_friend_code_run.
  destruct (bot self) eqn:Hbot; [by intros [= <- <-] |].
  destruct (in_range (String.length c) 3 51) eqn:Hlen; simpl;
    [| by intros [= <- <-]].
  case_bool_decide as Hfree; [| by intros [= <- <-]].
  intros [= <- <-]. split; [| split; [done | split; [done |]]].
  - intros c'.
    pose proof (count_documents_update_first
                  (λ d, bool_decide (doc_code d = Some c'))
                  (by_id (_id self)) (apply_set (SetCode c)) db) as Hle.
    specialize (Huniq c').
    destruct (find_one (by_id (_id self)) db) as [d|] eqn:Ed; [| lia].
    destruct (decide (c' = c)) as [-> | Hne].
    + rewrite Hfree in Hle. repeat case_match; lia.
    + assert (bool_decide (doc_code (apply_set (SetCode c) d) = Some c') = false)
        as Hother.
      { apply bool_decide_eq_false. destruct d. simpl. congruence. }
      rewrite Hother in Hle. case_match; lia.
  - intros u [= <-]. split; [apply in_range_spec in Hlen; lia |].
    split; [done |]. intros [d Hd] self2.
    rewrite set_friend_code_run.
    destruct (bot self2); [by eexists |].
    destruct (negb _); [by eexists |].
    rewrite bool_decide_eq_false_2; [by eexists |].
    unfold get_user in Hd.
    destruct (update_first_found _ (apply_set (SetCode c)) db d Hd)
      as (l1 & l2 & _ & _ & ->).
    rewrite count_documents_app, count_documents_cons.
    assert (bool_decide (doc_code (apply_set (SetCode c) d) = Some c) = true) as ->
      by (apply bool_decide_eq_true; by destruct d).
    lia.
Qed.

Lemma unique_codes_without_codes db :
  (∀ d, d ∈ db → doc_code d = None) → unique_codes db.
Proof.
  intros Hnone c.
  destruct (decide (count_documents (λ d, bool_decide (doc_code d = Some c)) db
                    = 0%nat)) as [-> | Hpos]; [lia |].
  apply count_documents_pos in Hpos as (d & Hd & Hc).
  apply bool_decide_eq_true in Hc. rewrite (Hnone d Hd) in Hc. done.
Qed.

(** Bob wants the code Ann holds. *)
Lemma set_friend_code_keeps_codes_unique_witness :
  unique_codes ann_with_code
  ∧ ∃ e, set_friend_code bob "ann-code" ann_with_code = (Raised e, ann_with_code).
Proof.
  assert (Huniq : unique_codes two_users).
  { apply unique_codes_without_codes. intros d Hd.
    repeat (apply elem_of_cons in Hd as [-> | Hd]); [done | done |].
    by apply elem_of_nil in Hd. }
  destruct (set_friend_code_keeps_codes_unique ann "ann-code" two_users
              ann_with_code (Returned (with_code "ann-code" ann)) Huniq eq_refl)
    as (Huniq' & _ & _ & Htaken).
  destruct (Htaken _ eq_refl) as (_ & _ & Hrefused).
  split; [exact Huniq' |]. apply Hrefused. by eexists.
Defined.

(** ** Tokens *)

Lemma get_user_split db x d :
  unique_ids db →
  get_user db x = Some d →
  ∃ l1 l2, db = l1 ++ d :: l2
           ∧ doc_id d = x
           ∧ (∀ d', d' ∈ l1 ++ l2 → doc_id d' ≠ x).
Proof.
  intros Huniq Hd. pose proof (get_user_Some _ _ _ Hd) as [_ Hid].
  destruct (update_first_found _ (λ d, d) db d Hd) as (l1 & l2 & -> & Hl1 & _).
  exists l1, l2. repeat split; [done |].
  intros d' Hd' Hx. apply elem_of_app in Hd' as [Hd' | Hd'].
  - specialize (Hl1 d' Hd'). apply by_id_true in Hx. congruence.
  - unfold unique_ids in Huniq. rewrite fmap_app, fmap_cons in Huniq.
    apply NoDup_app in Huniq as (_ & _ & Huniq).
    apply NoDup_cons in Huniq as [Hnotin _]. apply Hnotin.
    rewrite Hid, <- Hx. by apply list_elem_of_fmap_2.
Qed.

Lemma update_first_split flt u l1 d l2 :
  (∀ d', d' ∈ l1 → flt d' = false) → flt d = true →
  update_first flt u (l1 ++ d :: l2) = l1 ++ u d :: l2.
Proof.
  intros Hl1 Hd. induction l1 as [|d0 l1 IH]; simpl.
  - by rewrite Hd.
  - rewrite (Hl1 d0) by left. rewrite IH; [done |].
    intros d' Hd'. apply Hl1. by right.
Qed.

Lemma find_one_split flt l1 d l2 :
  (∀ d', d' ∈ l1 ++ l2 → flt d' = false) →
  find_one flt (l1 ++ d :: l2) = if flt d then Some d else None.
Proof.
  intros Hrest. rewrite find_one_app.
  assert (find_one flt l1 = None) as ->.
  { apply find_one_None. intros d' Hd'. apply Hrest, elem_of_app. by left. }
  rewrite find_one_cons. destruct (flt d); [done |].
  apply find_one_None. intros d' Hd'. apply Hrest, elem_of_app. by right.
Qed.

Lemma by_id_false_of x (l : list Doc) :
  (∀ d', d' ∈ l → doc_id d' ≠ x) → ∀ d', d' ∈ l → by_id x d' = false.
Proof.
  intros H d' Hd'. apply not_true_is_false. rewrite by_id_true. by apply H.
Qed.

Section TokenFacts.

Variable sha256_hexdigest : string → string.
Variable pbkdf2_hmac_hex : string → string → N → string.

(** [update_token] logs the user out everywhere.  The actor has a document
    (ids being unique) and the new token is non-empty and held by nobody.
    The call returns the token and leaves it in [self]; from then on
    [authorize] with the new token returns this user, and with an old token
    that only this user held it raises [InvalidUser]. *)
Theorem update_token_rotates (self : UserModel) (new_token : string)
    (db : list Doc) (d : Doc) :
  unique_ids db →
  get_user db (_id self) = Some d →
  new_token ≠ EmptyString →
  (∀ d', d' ∈ db → doc_token d' ≠ Some new_token) →
  ∃ db',
    update_token self new_token db
    = (Returned (new_token, with_token new_token self), db')
    ∧ (∀ login password, ∃ u,
         authorize sha256_hexdigest pbkdf2_hmac_hex login password new_token db'
         = (Returned u, db')
         ∧ _id u = _id self ∧ token u = Some new_token)
    ∧ (∀ login password old,
         old ≠ EmptyString → old ≠ new_token →
         (∀ d', d' ∈ db → doc_token d' = Some old → d' = d) →
         authorize sha256_hexdigest pbkdf2_hmac_hex login password old db'
         = (Raised (InvalidUser "No such user"), db')).
Proof.
  intros Huniq Hd Hnew Hfresh.
  destruct (get_user_split _ _ _ Huniq Hd) as (l1 & l2 & -> & Hid & Hrest).
  eexists. split; [reflexivity |].
  assert (Hdb' : update_first (by_id (_id self)) (apply_set (SetToken new_token))
                   (l1 ++ d :: l2)
                 = l1 ++ apply_set (SetToken new_token) d :: l2).
  { apply update_first_split; [| by apply by_id_true].
    apply by_id_false_of. intros d' Hd'.
    apply Hrest, elem_of_app. by left. }
  rewrite Hdb'. clear Hdb'. split.
  - intros login password. rewrite authorize_token_path by done.
    rewrite find_one_split.
    + assert (bool_decide (doc_token (apply_set (SetToken new_token) d)
                           = Some new_token) = true) as ->
        by (apply bool_decide_eq_true; by destruct d).
      destruct (UserModel_init_authorized (apply_set (SetToken new_token) d))
        as (u & -> & Hu & _ & _ & Htok & _).
      exists u. split; [done |]. rewrite Hu, Htok, apply_set_id.
      split; [done | by destruct d].
    + intros d' Hd'. apply bool_decide_eq_false, Hfresh.
      apply elem_of_app in Hd' as [Hd' | Hd']; apply elem_of_app;
        [by left | right; by right].
  - intros login password old Hold Hne Honly.
    rewrite authorize_token_path by done.
    rewrite find_one_split.
    + assert (bool_decide (doc_token (apply_set (SetToken new_token) d)
                           = Some old) = false) as ->; [| done].
      apply bool_decide_eq_false. destruct d. simpl. congruence.
    + intros d' Hd'. apply bool_decide_eq_false. intros Htok.
      apply (Hrest d' Hd'). rewrite <- Hid. f_equal. apply Honly; [| done].
      apply elem_of_app in Hd' as [Hd' | Hd']; apply elem_of_app;
        [by left | right; by right].
Qed.

End TokenFacts.

(** Ann, registered with the stand-in hashes, takes a new token. *)
Lemma update_token_rotates_witness :
  ∃ db',
    update_token ann "fresh" ann_registered
    = (Returned ("fresh"%string, with_token "fresh" ann), db')
    ∧ (∀ login password, ∃ u,
         authorize toy_sha256 toy_pbkdf2 login password "fresh" db' = (Returned u, db')
         ∧ _id u = 1%N ∧ token u = Some "fresh"%string)
    ∧ (∀ login password old,
         old ≠ EmptyString → old ≠ "fresh"%string →
         (∀ d', d' ∈ ann_registered → doc_token d' = Some old →
                d' = mkDoc 1 "Ann" 0 false None (Some "token-of-ann"%string)
                       (Some online) None None None (Some []) (Some []) (Some [])
                       (Some []) (Some "sha256:ann"%string)
                       (Some "secret$pepper"%string) (Some "pepper"%string)) →
         authorize toy_sha256 toy_pbkdf2 login password old db'
         = (Raised (InvalidUser "No such user"), db')).
Proof.
  apply (update_token_rotates toy_sha256 toy_pbkdf2 ann "fresh" ann_registered).
  - unfold unique_ids. apply (bool_decide_unpack _). reflexivity.
  - reflexivity.
  - discriminate.
  - intros d' Hd'. apply list_elem_of_singleton in Hd' as ->. discriminate.
Defined.

(** ** The cap on bots *)

Lemma bots_of_app owner l1 l2 :
  bots_of owner (l1 ++ l2) = (bots_of owner l1 + bots_of owner l2)%nat.
Proof. apply count_documents_app. Qed.

(** The cap the guard enforces.  If no parent owns more than twenty-one
    counted bots before [registrate_bot], none does afterwards.  A call that
    raises inserts nothing; a call that returns has inserted exactly one
    document, a bot owned by [owner], so the owner's count grew by one and
    every other count is what it was. *)
Theorem registrate_bot_keeps_cap nick owner new_token now new_id
    (db db' : list Doc) (r : outcome UserModel) :
  (∀ p, (bots_of p db ≤ 21)%nat) →
  registrate_bot nick owner new_token now new_id db = (r, db') →
  (∀ p, (bots_of p db' ≤ 21)%nat)
  ∧ (∀ e, r = Raised e → db' = db)
  ∧ (∀ u, r = Returned u →
       bot u = true ∧ parent u = Some owner ∧ _id u = new_id
       ∧ bots_of owner db' = S (bots_of owner db)
       ∧ (∀ p, p ≠ owner → bots_of p db' = bots_of p db)
       ∧ length db' = S (length db)).
Proof.
  intros Hcap. rewrite registrate_bot_run.
  destruct (Nat.ltb_spec 20 (bots_of owner db)) as [Hlt | Hle];
    [by intros [= <- <-] |].
  cbv zeta. unfold insert_one. cbn [doc_id].
  destruct (find_one (by_id new_id) db); [by intros [= <- <-] |].
  cbn [UserModel_init doc_login doc_password doc_salt].
  intros [= <- <-].
  assert (Hcount : ∀ p, bots_of p (db ++ [mkDoc new_id nick now true None
              (Some new_token) (Some online) None None (Some owner)
              (Some []) (Some []) (Some []) (Some []) None None None])
            = (bots_of p db + if decide (p = owner) then 1 else 0)%nat).
  { intros p. rewrite bots_of_app. f_equal. unfold bots_of.
    rewrite count_documents_cons. cbn [doc_parent doc_deleted].
    case_decide as Hp.
    - subst p. by rewrite !bool_decide_eq_true_2.
    - rewrite (bool_decide_eq_false_2 (Some owner = Some p)) by congruence. done. }
  split; [| split; [done |]].
  - intros p. rewrite Hcount. specialize (Hcap p). case_decide; [subst; lia | lia].
  - intros u [= <-]. repeat split.
    + rewrite Hcount, decide_True by done. lia.
    + intros p Hp. rewrite Hcount, decide_False by done. lia.
    + rewrite length_app. simpl. lia.
Qed.

(** Ann, who owns twenty bots, registers one more. *)
Lemma registrate_bot_keeps_cap_witness :
  (bots_of 1 (snd (registrate_bot "extra" 1 "token" 0 22 twenty_bots)) ≤ 21)%nat
  ∧ bots_of 1 (snd (registrate_bot "extra" 1 "token" 0 22 twenty_bots))
    = S (bots_of 1 twenty_bots).
Proof.
  assert (Hcap : ∀ p, (bots_of p twenty_bots ≤ 21)%nat).
  { intros p. unfold twenty_bots, bots_of. rewrite count_documents_cons.
    unfold count_documents.
    match goal with
    | |- context [length (filter ?P ?l)] => pose proof (length_filter P l) as H
    end.
    rewrite length_fmap, length_seq in H. case_match; lia. }
  destruct (registrate_bot_keeps_cap "extra" 1 "token" 0 22 twenty_bots
              (snd (registrate_bot "extra" 1 "token" 0 22 twenty_bots))
              (fst (registrate_bot "extra" 1 "token" 0 22 twenty_bots)) Hcap
              (surjective_pairing _)) as (Hkept & _ & Hgrown).
  split; [apply Hkept |].
  by destruct (Hgrown _ eq_refl) as (_ & _ & _ & Hcount & _).
Defined.

(** ** The deleted mark *)

Lemma deleted_ids_cons d db :
  deleted_ids (d :: db)
  = match doc_deleted d with
    | Some _ => doc_id d :: deleted_ids db
    | None => deleted_ids db
    end.
Proof.
  unfold deleted_ids. rewrite filter_cons.
  destruct (doc_deleted d) eqn:E; case_decide as H; try done.
  exfalso. apply H. by eexists.
Qed.

Lemma deleted_ids_app l1 l2 :
  deleted_ids (l1 ++ l2) = deleted_ids l1 ++ deleted_ids l2.
Proof. unfold deleted_ids. by rewrite filter_app, fmap_app. Qed.

Lemma deleted_ids_update_first flt u db :
  (∀ d, doc_id (u d) = doc_id d ∧ doc_deleted (u d) = doc_deleted d) →
  deleted_ids (update_first flt u db) = deleted_ids db.
Proof.
  intros Hu. induction db as [|d db IH]; [done |].
  cbn [update_first]. destruct (flt d); rewrite !deleted_ids_cons.
  - destruct (Hu d) as [-> ->]. done.
  - by rewrite IH.
Qed.

Lemma deleted_ids_update_one_set x s db :
  deleted_ids (update_first (by_id x) (apply_set s) db) = deleted_ids db.
Proof. apply deleted_ids_update_first. intros d. by destruct d, s. Qed.

Lemma deleted_ids_without_arrays db :
  deleted_ids (without_arrays <$> db) = deleted_ids db.
Proof.
  induction db as [|d db IH]; [done |].
  rewrite fmap_cons, !deleted_ids_cons, IH. by destruct d.
Qed.

Lemma deleted_ids_insert_one d db :
  doc_deleted d = None → deleted_ids (snd (insert_one d db)) = deleted_ids db.
Proof.
  intros Hd. unfold insert_one. destruct (find_one _ db); [done |].
  cbn [snd]. rewrite deleted_ids_app, deleted_ids_cons, Hd.
  apply app_nil_r.
Qed.

Section DeletedMark.

Variable sha256_hexdigest : string → string.
Variable pbkdf2_hmac_hex : string → string → N → string.

(** [delete_user] deletes nothing, and nothing else does.  The call hands
    [bulk_write] its two updates in a tuple; the driver refuses requests
    that are not a list, so for every actor and collection the call raises
    [TypeError] and the collection is what it was.  With that, none of the
    writing operations of the model, whatever its outcome, adds or removes
    a [deleted] key: the documents that carry the key are the same, in the
    same order, after the call as before it. *)
Theorem delete_user_marks_nothing (self : UserModel) (x : ObjectId)
    (confirm : bool) (text nick login password salt tok : string)
    (now : N) (new_id owner : ObjectId) :
  (∀ db, ∃ msg, delete_user self db = (Raised (TypeError msg), db))
  ∧ ∀ w, w ∈ [after (delete_user self);
              after (send_friend_request self x);
              after (response_friend_request self x confirm);
              after (cancel_friend_request self x);
              after (delete_friend self x);
              after (block_user self x);
              after (unblock_user self x);
              after (update_token self tok);
              after (set_nick self text);
              after (set_text_status self text);
              after (set_friend_code self text);
              after (registrate sha256_hexdigest pbkdf2_hmac_hex
                       nick login password salt tok now new_id);
              after (registrate_bot nick owner tok now new_id)] →
      ∀ db, deleted_ids (w db) = deleted_ids db.
Proof.
  split; [intros db; by eexists |].
  assert (Hrel : ∀ m,
            m ∈ [send_friend_request self x; response_friend_request self x confirm;
                 cancel_friend_request self x; delete_friend self x;
                 block_user self x; unblock_user self x] →
            ∀ db, deleted_ids (after m db) = deleted_ids db).
  { intros m Hm db. unfold after.
    destruct (m db) as [r db'] eqn:Hrun. cbn [snd].
    destruct r as [e | []].
    - assert (db' = db) as ->; [| done].
      revert Hrun. repeat (apply elem_of_cons in Hm as [-> | Hm]).
      + apply send_friend_request_no_write.
      + apply response_friend_request_no_write.
      + apply cancel_friend_request_no_write.
      + apply delete_friend_no_write.
      + apply block_user_no_write.
      + apply unblock_user_no_write.
      + by apply elem_of_nil in Hm.
    - destruct (relationship_batches self x confirm m Hm db db' Hrun)
        as (operations & Hbatch & ->).
      destruct (batch_between_untouched _ _ _ db Hbatch) as [Hkept _].
      by rewrite <- deleted_ids_without_arrays, Hkept, deleted_ids_without_arrays. }
  intros w Hw db.
  apply elem_of_cons in Hw as [-> | Hw]; [done |].
  do 6 (apply elem_of_cons in Hw as [-> | Hw];
        [apply Hrel; rewrite !elem_of_cons; auto 10 |]).
  repeat (apply elem_of_cons in Hw as [-> | Hw]); unfold after.
  - apply deleted_ids_update_one_set.
  - unfold set_nick. destruct (negb _); [done |].
    apply deleted_ids_update_one_set.
  - unfold set_text_status. destruct (_ <? _)%nat; [done |].
    apply deleted_ids_update_one_set.
  - rewrite set_friend_code_run.
    destruct (bot self); [done |]. destruct (negb _); [done |].
    case_bool_decide; [| done]. apply deleted_ids_update_one_set.
  - rewrite registrate_run. cbv zeta.
    destruct (find_one _ db); [done |].
    destruct (find_one (by_id new_id) db); [done |].
    cbn [snd]. rewrite deleted_ids_app. apply app_nil_r.
  - rewrite registrate_bot_run. cbv zeta.
    destruct (20 <? _)%nat; [done |].
    match goal with
    | |- context [insert_one ?d db] =>
        pose proof (deleted_ids_insert_one d db eq_refl) as Hins;
        destruct (insert_one d db) as [[e | r] db']
    end; exact Hins.
  - by apply elem_of_nil in Hw.
Qed.

End DeletedMark.

(** ** Listings and lookups by id *)

Lemma listed_exclude d : listed (exclude EXCLUDE_PUBLIC d) = listed d.
Proof. by destruct d. Qed.

Lemma collect_public_listed (l : list Doc) :
  collect_public (exclude EXCLUDE_PUBLIC <$> l) = Returned (listed <$> l).
Proof.
  induction l as [|d l IH]; [done |].
  rewrite !fmap_cons. cbn [collect_public]. rewrite IH.
  by destruct d.
Qed.

Lemma find_by_ids (ids : list ObjectId) projection db :
  find (λ d, bool_decide (doc_id d ∈ ids)) projection db
  = exclude projection <$> filter (λ d, doc_id d ∈ ids) db.
Proof.
  unfold find. f_equal. apply list_filter_iff. intros d.
  by rewrite bool_decide_spec.
Qed.

(** The blocked listing in closed form: one profile per stored document
    whose id was asked for, in the order of the collection; the call never
    raises and never writes.  Each profile shows id, nick, bot flag, creation
    time and text status of its document, the offline default as status, and
    the key [deleted] exactly when the document is marked deleted. *)
Theorem get_blocked_lists (self : UserModel) (ids : list ObjectId) (db : list Doc) :
  get_blocked self ids db
  = (Returned (listed <$> filter (λ d, doc_id d ∈ ids) db), db).
Proof.
  unfold get_blocked. rewrite bind_run. unfold query, lift_outcome.
  by rewrite find_by_ids, collect_public_listed.
Qed.

#[local] Instance nick_descending_total : Total nick_descending.
Proof.
  intros a b. unfold nick_descending.
  destruct (String.leb_total (doc_nick b) (doc_nick a)) as [H | H];
    rewrite H; [left | right]; exact I.
Qed.

(** The friends listing.  A bot gets the empty list.  Anybody else gets the
    profiles of the stored documents whose ids were asked for, each exactly
    once, ordered by nick descending; the call never raises and never
    writes. *)
Theorem get_friends_sorted (self : UserModel) (ids : list ObjectId) (db : list Doc) :
  (bot self = true → get_friends self ids db = (Returned [], db))
  ∧ (bot self = false →
     ∃ ps, get_friends self ids db = (Returned ps, db)
           ∧ Sorted listed_descending ps
           ∧ ps ≡ₚ listed <$> filter (λ d, doc_id d ∈ ids) db).
Proof.
  unfold get_friends. split; intros ->; [done |].
  rewrite bind_run. unfold query, lift_outcome. rewrite find_by_ids.
  set (found := filter (λ d, doc_id d ∈ ids) db).
  set (users := merge_sort nick_descending (exclude EXCLUDE_PUBLIC <$> found)).
  assert (Hex : users = exclude EXCLUDE_PUBLIC <$> users).
  { assert (Hall : Forall (λ u, u = exclude EXCLUDE_PUBLIC u) users).
    { unfold users. rewrite merge_sort_Permutation.
      apply Forall_fmap, Forall_forall. intros d _. by destruct d. }
    clearbody users. induction Hall as [|u l Hu _ IH]; [done |].
    rewrite fmap_cons. by rewrite <- Hu, <- IH. }
  exists (listed <$> users). split; [| split].
  - rewrite Hex at 1. by rewrite collect_public_listed.
  - apply (Sorted_fmap _ nick_descending); [by intros x y |].
    apply Sorted_merge_sort, _.
  - unfold users. rewrite merge_sort_Permutation, <- list_fmap_compose.
    assert (listed ∘ exclude EXCLUDE_PUBLIC <$> found = listed <$> found) as ->;
      [| done].
    apply list_fmap_ext. intros i d _. apply listed_exclude.
Qed.

(** Ann lists Bob. *)
Lemma get_friends_sorted_witness :
  ∃ ps, get_friends ann [2%N] two_users = (Returned ps, two_users)
        ∧ Sorted listed_descending ps
        ∧ ps ≡ₚ listed <$> filter (λ d, doc_id d ∈ [2%N]) two_users.
Proof.
  apply (proj2 (get_friends_sorted ann [2%N] two_users)). reflexivity.
Defined.

(** [from_id].  An id without a document raises [InvalidUser].  An id with a
    document returns, without writing, a user with that id and the nick and
    bot flag of the document, but with the offline default as status, no
    token and four empty relation sets, whatever the document stores: so on
    a user obtained this way, if it is no bot, answering or withdrawing a
    request, removing a friend and unblocking always raise
    [UserNotInGroup]. *)
Theorem from_id_spec (user_id : ObjectId) (db : list Doc) :
  (get_user db user_id = None →
     from_id user_id db = (Raised (InvalidUser "User id doesn't exists"), db))
  ∧ (∀ d, get_user db user_id = Some d →
       ∃ u, from_id user_id db = (Returned u, db)
            ∧ _id u = user_id ∧ nick u = doc_nick d ∧ bot u = doc_bot d
            ∧ status u = offline ∧ token u = None
            ∧ blocked u = [] ∧ friends u = []
            ∧ pendings_outgoing u = [] ∧ pendings_incoming u = []
            ∧ (bot u = false → ∀ y confirm db2,
                 (∃ msg, response_friend_request u y confirm db2
                         = (Raised (UserNotInGroup msg), db2))
                 ∧ (∃ msg, cancel_friend_request u y db2
                           = (Raised (UserNotInGroup msg), db2))
                 ∧ (∃ msg, delete_friend u y db2
                           = (Raised (UserNotInGroup msg), db2))
                 ∧ (∃ msg, unblock_user u y db2
                           = (Raised (UserNotInGroup msg), db2)))).
Proof.
  unfold from_id, get_user. split.
  - intros Hnone. rewrite bind_run. unfold query. by rewrite Hnone.
  - intros d Hd. rewrite bind_run. unfold query. rewrite Hd.
    cbn [fmap option_fmap option_map]. unfold lift_outcome.
    apply get_user_Some in Hd as [_ Hid].
    destruct d. cbn in Hid. subst.
    eexists. split; [reflexivity |]. cbn. do 9 (split; [done |]).
    intros ->. intros y confirm db2. repeat split.
    + unfold response_friend_request. cbn. by eexists.
    + unfold cancel_friend_request. cbn. by eexists.
    + unfold delete_friend. cbn. by eexists.
    + unfold unblock_user. cbn. by eexists.
Qed.

(** Bob, who has a request of Ann, is looked up by id. *)
Lemma from_id_spec_witness :
  ∃ u, from_id 2 requested = (Returned u, requested)
       ∧ _id u = 2%N ∧ nick u = "Bob"%string ∧ bot u = false
       ∧ status u = offline ∧ token u = None
       ∧ blocked u = [] ∧ friends u = []
       ∧ pendings_outgoing u = [] ∧ pendings_incoming u = []
       ∧ (bot u = false → ∀ y confirm db2,
            (∃ msg, response_friend_request u y confirm db2
                    = (Raised (UserNotInGroup msg), db2))
            ∧ (∃ msg, cancel_friend_request u y db2
                      = (Raised (UserNotInGroup msg), db2))
            ∧ (∃ msg, delete_friend u y db2
                      = (Raised (UserNotInGroup msg), db2))
            ∧ (∃ msg, unblock_user u y db2
                      = (Raised (UserNotInGroup msg), db2))).
Proof.
  apply (proj2 (from_id_spec 2 requested)
           (set_array Fpendings_incoming (Some [1%N]) (human 2 "Bob"))).
  reflexivity.
Defined.

(** ** Delivery latency *)

Section NotifierLatency.

Context {Message : Type}.
Variable str : Message → string.

Lemma run_snoc earlier final (self : WebsocketNotifier Message) wire :
  activated self = true →
  run str (earlier ++ [final]) self wire
  = Returned (mkNotifier true (concat final),
              wire ++ (str <$> (message_pool self ++ concat (concat earlier)))).
Proof.
  revert self wire.
  induction earlier as [|arriving earlier IH]; intros self wire Hact; simpl.
  - rewrite Hact, cycle_sends_snapshot, Hact. by rewrite app_nil_r.
  - rewrite Hact, cycle_sends_snapshot, IH by done. simpl.
    by rewrite concat_app, <- app_assoc, <- fmap_app.
Qed.

(** A message waits at most one cycle.  When the loop has run through one or
    more cycles, everything that was in the pool at the start or was
    enqueued during any cycle but the last has been sent, in the order of
    enqueueing, and the pool holds exactly what arrived during the last
    cycle; the loop is still activated. *)
Theorem delivery_within_one_cycle earlier final
    (self : WebsocketNotifier Message) wire :
  __call__ str (earlier ++ [final]) self wire
  = Returned (mkNotifier true (concat final),
              wire ++ (str <$> (message_pool self ++ concat (concat earlier)))).
Proof. unfold __call__. by rewrite run_snoc. Qed.

End NotifierLatency.

(** ** Blocking, in general *)

(** [block_user] by an actor loaded from the collection, bot or not.  If the
    target resolves to an existing, non-deleted, non-bot user and is not yet
    in the actor's blocked array, the call returns; afterwards the target is
    in the actor's blocked array and not in the actor's friends, the actor
    is no longer in the friends of a target it was friends with, and no other
    edge has been added anywhere.  If the target does not resolve (a bot or a
    deleted user, for instance) or is blocked already, the call raises
    [UserNotInGroup] and writes nothing. *)
Theorem block_user_spec (self : UserModel) (B : ObjectId) (db : list Doc) :
  loaded db self →
  (resolves db B → B ∉ relation Fblocked db (_id self) →
     ∃ db', block_user self B db = (Returned tt, db')
            ∧ B ∈ relation Fblocked db' (_id self)
            ∧ (B ∉ relation Ffriends db' (_id self))
            ∧ (B ∈ relation Ffriends db (_id self) →
               _id self ∉ relation Ffriends db' B)
            ∧ (∀ f x y, y ∈ relation f db' x →
                 y ∈ relation f db x ∨ (x = _id self ∧ f = Fblocked ∧ y = B)))
  ∧ (¬ resolves db B ∨ B ∈ relation Fblocked db (_id self) →
     ∃ msg, block_user self B db = (Raised (UserNotInGroup msg), db)).
Proof.
  intros Hload.
  destruct (loaded_relations _ _ Hload) as (Hself & Hbl & Hfr & Hpo & Hpi).
  destruct (_valid_user_id_run B db) as (bv & Hv & Hvalid).
  split.
  - intros Hres Hnot.
    assert (Hrun : ∃ db', block_user self B db = (Returned tt, db')).
    { unfold block_user. rewrite bind_run, Hv.
      assert (bv = true) as -> by by apply Hvalid.
      rewrite Hbl, (bool_decide_eq_false_2 _ Hnot). simpl.
      repeat case_bool_decide; simpl; by eexists. }
    destruct Hrun as [db' Hrun]. exists db'. split; [done |].
    destruct (block_user_effect _ _ _ _ Hload Hrun) as (_ & Hf1 & Hf2).
    split; [| split; [done | split; [done |]]].
    + apply (block_user_returned _ _ _ _ Hrun).
      apply block_user_returned_batch in Hrun as (_ & _ & ->).
      by apply is_Some_get_user_foldl.
    + apply block_user_returned_batch in Hrun as (_ & _ & ->).
      intros f x y. repeat case_bool_decide; simpl;
        rewrite ?elem_of_relation_pull, ?elem_of_relation_push; tauto.
  - intros Hrefused. unfold block_user. rewrite bind_run, Hv, Hbl.
    destruct Hrefused as [Hnr | Hin].
    + assert (bv = false) as ->
        by (destruct bv; [exfalso; by apply Hnr, Hvalid | done]).
      simpl. by eexists.
    + rewrite (bool_decide_eq_true_2 _ Hin), orb_true_r. by eexists.
Qed.

(** Ann tries to block her own bot. *)
Lemma block_user_spec_witness :
  ∃ msg, block_user ann 3 with_robot = (Raised (UserNotInGroup msg), with_robot).
Proof.
  refine (proj2 (block_user_spec ann 3 with_robot _) _).
  - eexists. split; reflexivity.
  - left. intros (d & Hd & Hid & Hbot & _).
    repeat (apply elem_of_cons in Hd as [-> | Hd]); try done.
    by apply elem_of_nil in Hd.
Defined.
